(** * pyarr: the request-construction layer of the Lidarr and Radarr clients

    A shallow embedding of [pyarr/lidarr.py] and [pyarr/radarr.py].  Every
    endpoint method is a computation in a small state-and-exception monad
    whose state records the HTTP requests handed to the transport, the
    warnings emitted and the lines printed.  The remote service is an
    arbitrary function from the request history and the current request to
    a decoded JSON value or an exception. *)

From Stdlib Require Import Ascii.
From stdpp Require Import gmap strings list fin_maps pretty.

Open Scope string_scope.
Open Scope Z_scope.
Open Scope list_scope.

(** ** Python values *)

(** Decoded JSON and the values the methods build: [None], booleans,
    integers, strings, lists and string-keyed dictionaries. *)
#[warning="-register-all"] Inductive pyval : Type :=
  | PNone
  | PBool (b : bool)
  | PInt (z : Z)
  | PStr (s : string)
  | PList (l : list pyval)
  | PDict (d : gmap string pyval).

(** Python's truth-value test ([if x:], [x and y], [x or y]). *)
Definition truthy (v : pyval) : bool :=
  match v with
  | PNone => false
  | PBool b => b
  | PInt z => negb (z =? 0)
  | PStr s => negb (String.eqb s "")
  | PList l => match l with [] => false | _ :: _ => true end
  | PDict d => negb (bool_decide (size d = 0%nat))
  end.

(** [isinstance(v, list)]. *)
Definition is_list (v : pyval) : bool :=
  match v with PList _ => true | _ => false end.

(** [str(n)] for an integer, as an f-string renders it. *)
Definition str_int (n : Z) : string := pretty n.

(** [str(b)] for a boolean. *)
Definition str_bool (b : bool) : string := if b then "True" else "False".

(** [type(v)] as [print] shows it. *)
Definition type_repr (v : pyval) : string :=
  match v with
  | PNone => "<class 'NoneType'>"
  | PBool _ => "<class 'bool'>"
  | PInt _ => "<class 'int'>"
  | PStr _ => "<class 'str'>"
  | PList _ => "<class 'list'>"
  | PDict _ => "<class 'dict'>"
  end.

(** Optional arguments: [None] or a value of the annotated type. *)
Definition oint (o : option Z) : pyval := from_option PInt PNone o.
Definition obool (o : option bool) : pyval := from_option PBool PNone o.
Definition ints (l : list Z) : pyval := PList (PInt <$> l).

(** An identifier argument annotated [Union[int, list[int]]]. *)
Inductive int_or_list : Type :=
  | OneId (n : Z)
  | ManyIds (l : list Z).

(** An identifier argument annotated [Union[str, int]]. *)
Inductive str_or_int : Type :=
  | IntId (n : Z)
  | StrId (s : string).

(** ** Closed string vocabularies

    Sort keys, sort directions and monitor modes are closed sets of
    string constants, none of them empty.  A member is sent as its
    string. *)
Class Vocabulary (E : Type) : Type := {
  vocab_value : E → string;
  vocab_nonempty : ∀ e, vocab_value e ≠ ""
}.

Definition vocab {E} `{Vocabulary E} (e : E) : pyval := PStr (vocab_value e).
Definition ovocab {E} `{Vocabulary E} (o : option E) : pyval :=
  from_option vocab PNone o.

(** [RadarrSortKey] of [pyarr/models/radarr.py]. *)
Inductive RadarrSortKey : Type :=
  | SK_date | SK_downloadClient | SK_id | SK_indexer | SK_languages
  | SK_message | SK_modieId | SK_movies_sortTitle | SK_path | SK_progress
  | SK_protocol | SK_quality | SK_ratings | SK_title | SK_size
  | SK_sourcetitle | SK_status | SK_timeleft.

Definition RadarrSortKey_value (k : RadarrSortKey) : string :=
  match k with
  | SK_date => "date" | SK_downloadClient => "downloadClient"
  | SK_id => "id" | SK_indexer => "indexer" | SK_languages => "languages"
  | SK_message => "message" | SK_modieId => "modieId"
  | SK_movies_sortTitle => "movies.sortTitle" | SK_path => "path"
  | SK_progress => "progress" | SK_protocol => "protocol"
  | SK_quality => "quality" | SK_ratings => "ratings" | SK_title => "title"
  | SK_size => "size" | SK_sourcetitle => "sourcetitle"
  | SK_status => "status" | SK_timeleft => "timeleft"
  end.

#[export] Program Instance RadarrSortKey_vocabulary : Vocabulary RadarrSortKey :=
  {| vocab_value := RadarrSortKey_value |}.
Next Obligation. by intros []. Qed.

(** [RadarrEventType] of [pyarr/models/radarr.py]. *)
Inductive RadarrEventType : Type :=
  | ET_unknown | ET_grabbed | ET_downloadFolderImported | ET_downloadFailed
  | ET_movieFileDeleted | ET_movieFolderImported | ET_movieFileRenamed
  | ET_downloadIgnored.

Definition RadarrEventType_value (e : RadarrEventType) : string :=
  match e with
  | ET_unknown => "unknown" | ET_grabbed => "grabbed"
  | ET_downloadFolderImported => "downloadFolderImported"
  | ET_downloadFailed => "downloadFailed"
  | ET_movieFileDeleted => "movieFileDeleted"
  | ET_movieFolderImported => "movieFolderImported"
  | ET_movieFileRenamed => "movieFileRenamed"
  | ET_downloadIgnored => "downloadIgnored"
  end.

#[export] Program Instance RadarrEventType_vocabulary : Vocabulary RadarrEventType :=
  {| vocab_value := RadarrEventType_value |}.
Next Obligation. by intros []. Qed.

(** [RadarrCommands] of [pyarr/models/radarr.py]. *)
Inductive RadarrCommands : Type :=
  | DownloadedMoviesScan | MissingMoviesSearch | RefreshMovie | RenameMovie
  | RenameFiles | Backup.

Definition RadarrCommands_value (c : RadarrCommands) : string :=
  match c with
  | DownloadedMoviesScan => "DownloadedMoviesScan"
  | MissingMoviesSearch => "MissingMoviesSearch"
  | RefreshMovie => "RefreshMovie" | RenameMovie => "RenameMovie"
  | RenameFiles => "RenameFiles" | Backup => "Backup"
  end.

#[export] Program Instance RadarrCommands_vocabulary : Vocabulary RadarrCommands :=
  {| vocab_value := RadarrCommands_value |}.
Next Obligation. by intros []. Qed.

(** An optional string argument. *)
Definition ostr (o : option string) : pyval := from_option PStr PNone o.

(** Modelled from the spec: the sort-direction vocabulary of
    [pyarr/models/common.py], which is not among the sources; the three
    members and their strings are the ones the tests' URLs show. *)
Inductive PyarrSortDirection : Type :=
  | ASC | DEFAULT | DESC.

Definition PyarrSortDirection_value (d : PyarrSortDirection) : string :=
  match d with
  | ASC => "ascending" | DEFAULT => "default" | DESC => "descending"
  end.

#[export] Program Instance PyarrSortDirection_vocabulary :
  Vocabulary PyarrSortDirection :=
  {| vocab_value := PyarrSortDirection_value |}.
Next Obligation. by intros []. Qed.

(** ** Exceptions, requests and the world *)

Inductive exn : Type :=
  | PyarrMissingArgument (msg : string)
  | PyarrMissingProfile (msg : string)
  | PyarrRecordNotFound (msg : string)
  | IndexError
  | KeyError (key : pyval)
  | TypeError
  | TransportError (msg : string).

Inductive outcome (A : Type) : Type :=
  | Return (a : A)
  | Raise (e : exn).
Arguments Return {A} a.
Arguments Raise {A} e.

Inductive http_method : Type := GET | POST | PUT | DELETE.

(** What the transport is asked to send: the method, the path below the
    API root, the query parameters and the JSON body if there is one. *)
Record request : Type := Request {
  rq_method : http_method;
  rq_path : string;
  rq_params : gmap string pyval;
  rq_data : option pyval
}.

Inductive warning : Type :=
  | DeprecationWarning (msg : string).

Record world : Type := World {
  trace : list request;      (* requests sent so far, oldest first *)
  warnings : list warning;   (* warnings emitted so far, oldest first *)
  stdout : list string       (* lines printed so far, oldest first *)
}.

(** ** The monad of endpoint methods *)

Definition py (A : Type) : Type := world → outcome A * world.

#[export] Instance py_ret : MRet py := λ A a w, (Return a, w).

#[export] Instance py_bind : MBind py := λ A B k c w,
  match c w with
  | (Return a, w') => k a w'
  | (Raise e, w') => (Raise e, w')
  end.

Definition raise {A} (e : exn) : py A := λ w, (Raise e, w).

Definition lift {A} (o : outcome A) : py A := λ w, (o, w).

(** [try: c except IndexError: h]. *)
Definition except_IndexError {A} (c : py A) (h : py A) : py A :=
  λ w, match c w with
       | (Raise IndexError, w') => h w'
       | r => r
       end.

(** [warnings.warn(msg, DeprecationWarning)] under the default filters:
    the warning is recorded and execution goes on. *)
Definition warn (msg : string) : py unit :=
  λ w, (Return (), World (trace w) (warnings w ++ [DeprecationWarning msg]) (stdout w)).

Definition print (line : string) : py unit :=
  λ w, (Return (), World (trace w) (warnings w) (stdout w ++ [line])).

(** ** Subscription *)

(** [v[i]] for an integer [i]. *)
Definition getitem_int (v : pyval) (i : Z) : outcome pyval :=
  match v with
  | PList l =>
      let n := Z.of_nat (length l) in
      let j := if i <? 0 then i + n else i in
      if (0 <=? j) && (j <? n)
      then from_option Return (Raise IndexError) (l !! Z.to_nat j)
      else Raise IndexError
  | PStr s =>
      let n := Z.of_nat (String.length s) in
      let j := if i <? 0 then i + n else i in
      if (0 <=? j) && (j <? n)
      then Return (PStr (String.substring (Z.to_nat j) 1 s))
      else Raise IndexError
  | PDict _ => Raise (KeyError (PInt i))
  | _ => Raise TypeError
  end.

(** [v[k]] for a string [k]. *)
Definition getitem_str (v : pyval) (k : string) : outcome pyval :=
  match v with
  | PDict d => from_option Return (Raise (KeyError (PStr k))) (d !! k)
  | _ => Raise TypeError
  end.

(** [v[k] = x] for a string [k]; the updated object is returned. *)
Definition setitem_str (v : pyval) (k : string) (x : pyval) : outcome pyval :=
  match v with
  | PDict d => Return (PDict (<[k := x]> d))
  | _ => Raise TypeError
  end.

(** The requests a computation hands to the transport when started in [w]. *)
Definition issued {A} (c : py A) (w : world) : list request :=
  drop (length (trace w)) (trace (c w).2).

(** ** The base client *)

(** The remote service behind the transport: given the requests already
    sent and the current one, the decoded JSON answer or the exception the
    transport raises. *)
Definition transport : Type := list request → request → outcome pyval.

(** Hand a request to the transport and record it. *)
Definition send (self : transport) (r : request) : py pyval :=
  λ w, (self (trace w) r, World (trace w ++ [r]) (warnings w) (stdout w)).

(** Modelled from the spec: the [_get], [_post], [_put] and [_delete]
    helpers of the base client ([pyarr/base.py] and the request handler are
    not among the sources).  Each builds the path from the version prefix
    and the fragment, forwards the parameters and the body, and returns
    what the transport returns; absent parameters and an empty dictionary
    give the same empty query. *)
Definition _get (self : transport) (path ver_uri : string)
    (params : option (gmap string pyval)) : py pyval :=
  send self (Request GET (ver_uri +:+ "/" +:+ path) (default ∅ params) None).

(** Modelled from the spec: [_post] of the base client, the POST counterpart of
    [_get], with an optional JSON body. *)
Definition _post (self : transport) (path ver_uri : string)
    (params : option (gmap string pyval)) (data : option pyval) : py pyval :=
  send self (Request POST (ver_uri +:+ "/" +:+ path) (default ∅ params) data).

(** Modelled from the spec: [_put] of the base client, the PUT counterpart of
    [_get], with an optional JSON body. *)
Definition _put (self : transport) (path ver_uri : string)
    (params : option (gmap string pyval)) (data : option pyval) : py pyval :=
  send self (Request PUT (ver_uri +:+ "/" +:+ path) (default ∅ params) data).

(** Modelled from the spec: [_delete] of the base client, the DELETE counterpart of
    [_get], with an optional JSON body. *)
Definition _delete (self : transport) (path ver_uri : string)
    (params : option (gmap string pyval)) (data : option pyval) : py pyval :=
  send self (Request DELETE (ver_uri +:+ "/" +:+ path) (default ∅ params) data).

(** Modelled from the spec: [get_quality_profile] of the base client
    ([pyarr/base.py] is not among the sources), called without an id: a
    GET of the configured quality profiles. *)
Definition get_quality_profile (self : transport) (ver_uri : string) : py pyval :=
  _get self "qualityprofile" ver_uri None.

(** ** [pyarr/lidarr.py] *)

Module Lidarr.
Section LidarrAPI.
  (** The vocabularies of [pyarr/models/lidarr.py], which is not among the
      sources: monitor modes, sent as they are, and sort keys. *)
Context {LidarrArtistMonitor : Type} (monitor_json : LidarrArtistMonitor → pyval).
Context {LidarrSortKey : Type} `{!Vocabulary LidarrSortKey}.
Context (self : transport).

Definition ver_uri : string := "/v1".

Definition add_root_folder (name path : string)
      (qualityProfile metadataProfile : Z)
      (defaultTags : option (list Z)) : py pyval :=
    let tags := from_option ints PNone defaultTags in
    let folder_json : gmap string pyval :=
      {[ "defaultTags" := if truthy tags then tags else PList [];
         "defaultQualityProfileId" := PInt qualityProfile;
         "defaultMetadataProfileId" := PInt metadataProfile;
         "name" := PStr name;
         "path" := PStr path ]} in
    _post self "rootfolder" ver_uri None (Some (PDict folder_json)).

Definition lookup_artist (term : string) : py pyval :=
    _get self "artist/lookup" ver_uri (Some {[ "term" := PStr term ]}).

Definition lookup_album (term : string) : py pyval :=
    _get self "album/lookup" ver_uri (Some {[ "term" := PStr term ]}).

Definition get_metadata_profile (id_ : option Z) : py pyval :=
    _get self
      ("metadataprofile" +:+
         match id_ with
         | Some n => if truthy (PInt n) then "/" +:+ str_int n else ""
         | None => ""
         end)
      ver_uri None.

Definition _artist_json (id_ root_dir : string)
      (quality_profile_id metadata_profile_id : option Z)
      (monitored : bool) (artist_monitor : LidarrArtistMonitor)
      (artist_search_for_missing_albums : bool) : py pyval :=
    quality_profile_id ←
      match quality_profile_id with
      | None =>
          except_IndexError
            (profiles ← get_quality_profile self ver_uri;
             first ← lift (getitem_int profiles 0);
             lift (getitem_str first "id"))
            (raise (PyarrMissingProfile "There is no Quality Profile setup"))
      | Some q => mret (PInt q)
      end;
    metadata_profile_id ←
      match metadata_profile_id with
      | None =>
          except_IndexError
            (profiles ← get_metadata_profile None;
             first ← lift (getitem_int profiles 0);
             lift (getitem_str first "id"))
            (raise (PyarrMissingProfile "There is no Metadata Profile setup"))
      | Some m => mret (PInt m)
      end;
    found ← lookup_artist ("lidarr:" +:+ id_);
    artist ← lift (getitem_int found 0);
    artist ← lift (setitem_str artist "id" (PInt 0));
    artist ← lift (setitem_str artist "metadataProfileId" metadata_profile_id);
    artist ← lift (setitem_str artist "qualityProfileId" quality_profile_id);
    artist ← lift (setitem_str artist "rootFolderPath" (PStr root_dir));
    artist ← lift (setitem_str artist "addOptions"
                     (PDict {[ "monitor" := monitor_json artist_monitor;
                               "searchForMissingAlbums" :=
                                 PBool artist_search_for_missing_albums ]}));
    artist ← lift (setitem_str artist "monitored" (PBool monitored));
    mret artist.

Definition add_artist (id_ root_dir : string)
      (quality_profile_id metadata_profile_id : option Z)
      (monitored : bool) (artist_monitor : LidarrArtistMonitor)
      (artist_search_for_missing_albums : bool) : py pyval :=
    artist_json ← _artist_json id_ root_dir quality_profile_id
                    metadata_profile_id monitored artist_monitor
                    artist_search_for_missing_albums;
    _post self "artist" ver_uri None (Some artist_json).

Definition _album_json (id_ root_dir : string)
      (quality_profile_id metadata_profile_id : option Z)
      (monitored : bool) (artist_monitor : LidarrArtistMonitor)
      (artist_search_for_missing_albums : bool) : py pyval :=
    quality_profile_id ←
      match quality_profile_id with
      | None =>
          except_IndexError
            (profiles ← get_quality_profile self ver_uri;
             first ← lift (getitem_int profiles 0);
             lift (getitem_str first "id"))
            (raise (PyarrMissingProfile "There is no Quality Profile setup"))
      | Some q => mret (PInt q)
      end;
    metadata_profile_id ←
      match metadata_profile_id with
      | None =>
          except_IndexError
            (profiles ← get_metadata_profile None;
             first ← lift (getitem_int profiles 0);
             lift (getitem_str first "id"))
            (raise (PyarrMissingProfile "There is no Metadata Profile setup"))
      | Some m => mret (PInt m)
      end;
    found ← lookup_album ("lidarr:" +:+ id_);
    album ← lift (getitem_int found 0);
    album ← lift (setitem_str album "id" (PInt 0));
    album ← lift (setitem_str album "metadataProfileId" metadata_profile_id);
    album ← lift (setitem_str album "qualityProfileId" quality_profile_id);
    album ← lift (setitem_str album "rootFolderPath" (PStr root_dir));
    album ← lift (setitem_str album "addOptions"
                    (PDict {[ "monitor" := monitor_json artist_monitor;
                              "searchForMissingAlbums" :=
                                PBool artist_search_for_missing_albums ]}));
    album ← lift (setitem_str album "monitored" (PBool monitored));
    mret album.

Definition add_album (id_ root_dir : string)
      (quality_profile_id metadata_profile_id : option Z)
      (monitored : bool) (artist_monitor : LidarrArtistMonitor)
      (artist_search_for_missing_albums : bool) : py pyval :=
    album_json ← _album_json id_ root_dir quality_profile_id
                   metadata_profile_id monitored artist_monitor
                   artist_search_for_missing_albums;
    _post self "album" ver_uri None (Some album_json).

Definition get_wanted (id_ page page_size : option Z)
      (sort_key : option LidarrSortKey) (sort_dir : option PyarrSortDirection)
      (missing : bool) : py pyval :=
    let params : gmap string pyval := ∅ in
    let params := if truthy (oint page)
                  then <["page" := oint page]> params else params in
    let params := if truthy (oint page_size)
                  then <["pageSize" := oint page_size]> params else params in
    params ←
      (if truthy (ovocab sort_key) && truthy (ovocab sort_dir)
       then mret (<["sortDirection" := ovocab sort_dir]>
                    (<["sortKey" := ovocab sort_key]> params))
       else if truthy (ovocab sort_key) || truthy (ovocab sort_dir)
       then raise (PyarrMissingArgument
                     "sort_key and sort_dir  must be used together")
       else mret params);
    let _path := if missing then "missing" else "cutoff" in
    _get self
      ("wanted/" +:+ _path +:+
         match id_ with None => "" | Some n => "/" +:+ str_int n end)
      ver_uri (Some params).

Definition get_tracks (artistId albumId albumReleaseId : option Z)
      (trackIds : option int_or_list) : py pyval :=
    let params : gmap string pyval := ∅ in
    let params := match artistId with
                  | Some n => <["artistId" := PInt n]> params
                  | None => params
                  end in
    let params := match albumId with
                  | Some n => <["albumId" := PInt n]> params
                  | None => params
                  end in
    let params := match albumReleaseId with
                  | Some n => <["albumReleaseId" := PInt n]> params
                  | None => params
                  end in
    let params := match trackIds with
                  | Some (ManyIds l) => <["trackIds" := ints l]> params
                  | _ => params
                  end in
    match artistId, albumId, albumReleaseId, trackIds with
    | None, None, None, None =>
        raise (PyarrMissingArgument
                 "One of artistId, albumId, albumReleaseId or trackIds must be provided")
    | _, _, _, _ => mret ()
    end;;
    _get self
      ("track" +:+
         match trackIds with
         | Some (OneId n) => "/" +:+ str_int n
         | _ => ""
         end)
      ver_uri (Some params).

Definition delete_track_file (ids_ : int_or_list) : py pyval :=
    _delete self
      ("trackfile/" +:+
         match ids_ with ManyIds _ => "bulk" | OneId n => str_int n end)
      ver_uri None
      match ids_ with
      | ManyIds l => Some (PDict {[ "trackFileIds" := ints l ]})
      | OneId _ => None
      end.

Definition get_queue (page page_size : option Z)
      (sort_key : option LidarrSortKey) (sort_dir : option PyarrSortDirection)
      (unknown_artists include_artist include_album : option bool) : py pyval :=
    let params : gmap string pyval := ∅ in
    let params := if truthy (oint page)
                  then <["page" := oint page]> params else params in
    let params := if truthy (oint page_size)
                  then <["pageSize" := oint page_size]> params else params in
    params ←
      (if truthy (ovocab sort_key) && truthy (ovocab sort_dir)
       then mret (<["sortDirection" := ovocab sort_dir]>
                    (<["sortKey" := ovocab sort_key]> params))
       else if truthy (ovocab sort_key) || truthy (ovocab sort_dir)
       then raise (PyarrMissingArgument
                     "sort_key and sort_dir  must be used together")
       else mret params);
    let params := if truthy (obool unknown_artists)
                  then <["unknownArtists" := obool unknown_artists]> params
                  else params in
    let params := if truthy (obool include_album)
                  then <["includeAlbum" := obool include_album]> params
                  else params in
    let params := if truthy (obool include_artist)
                  then <["includeArtist" := obool include_artist]> params
                  else params in
    _get self "queue" ver_uri (Some params).

(** *** The other endpoints of [LidarrAPI] *)

(** The command vocabulary of [pyarr/models/lidarr.py], which is not among
    the sources. *)
Context {LidarrCommand : Type} `{!Vocabulary LidarrCommand}.

Definition lookup (term : string) : py pyval :=
  _get self "search" ver_uri (Some {[ "term" := PStr term ]}).

Definition get_artist (id_ : option str_or_int) : py pyval :=
  let _path := match id_ with
               | Some (IntId n) => "/" +:+ str_int n
               | _ => ""
               end in
  _get self ("artist" +:+ _path) ver_uri
    match id_ with
    | Some (StrId s) => Some {[ "mbId" := PStr s ]}
    | _ => None
    end.

Definition upd_artist (data : pyval) : py pyval :=
  _put self "artist" ver_uri None (Some data).

Definition delete_artist (id_ : Z) : py pyval :=
  _delete self ("artist/" +:+ str_int id_) ver_uri None None.

Definition get_album (albumIds : option int_or_list)
    (artistId foreignAlbumId : option Z) (allArtistAlbums : bool) : py pyval :=
  let params : gmap string pyval :=
    {[ "includeAllArtistAlbums" := PBool allArtistAlbums ]} in
  let params := match albumIds with
                | Some (ManyIds l) => <["albumids" := ints l]> params
                | _ => params
                end in
  let params := match artistId with
                | Some n => <["artistId" := PInt n]> params
                | None => params
                end in
  let params := match foreignAlbumId with
                | Some n => <["foreignAlbumId" := PInt n]> params
                | None => params
                end in
  let _path := match albumIds with
               | Some (OneId n) => "/" +:+ str_int n
               | _ => ""
               end in
  _get self ("album" +:+ _path) ver_uri (Some params).

Definition upd_album (data : pyval) : py pyval :=
  _put self "album" ver_uri None (Some data).

Definition delete_album (id_ : Z) : py pyval :=
  _delete self ("album/" +:+ str_int id_) ver_uri None None.

Definition post_command (name : LidarrCommand) : py pyval :=
  _post self "command" ver_uri None (Some (PDict {[ "name" := vocab name ]})).

Definition get_parse (title : string) : py pyval :=
  _get self "parse" ver_uri (Some {[ "title" := PStr title ]}).

Definition get_track_file (artistId albumId : option Z)
    (trackFileIds : option int_or_list) (unmapped : option bool) : py pyval :=
  match artistId, albumId, trackFileIds, unmapped with
  | None, None, None, None =>
      raise (PyarrMissingArgument
               "artistId, albumId, trackFileIds or unmapped must be provided")
  | _, _, _, _ => mret ()
  end;;
  let params : gmap string pyval := ∅ in
  let params := match artistId with
                | Some n => <["artistId" := PInt n]> params
                | None => params
                end in
  let params := match albumId with
                | Some n => <["albumId" := PInt n]> params
                | None => params
                end in
  let params := match trackFileIds with
                | Some (ManyIds l) => <["trackFileIds" := ints l]> params
                | _ => params
                end in
  let params := match unmapped with
                | Some b => <["unmapped" := PBool b]> params
                | None => params
                end in
  _get self
    ("trackfile" +:+
       match trackFileIds with
       | Some (OneId n) => "/" +:+ str_int n
       | _ => ""
       end)
    ver_uri (Some params).

Definition upd_track_file (data : pyval) : py pyval :=
  _put self "trackfile" ver_uri None (Some data).

Definition upd_metadata_profile (data : pyval) : py pyval :=
  _put self "metadataprofile" ver_uri None (Some data).

Definition get_metadata_provider : py pyval :=
  _get self "config/metadataProvider" ver_uri None.

Definition upd_metadata_provider (data : pyval) : py pyval :=
  _put self "config/metadataProvider" ver_uri None (Some data).

Definition get_queue_details (artistId : option Z) (albumIds : option (list Z))
    (include_artist include_album : option bool) : py pyval :=
  let params : gmap string pyval := ∅ in
  let params := if truthy (obool include_artist)
                then <["includeArtist" := obool include_artist]> params
                else params in
  let params := if truthy (obool include_album)
                then <["includeAlbum" := obool include_album]> params
                else params in
  let params := if truthy (oint artistId)
                then <["artistId" := oint artistId]> params else params in
  let params := if truthy (from_option ints PNone albumIds)
                then <["albumIds" := from_option ints PNone albumIds]> params
                else params in
  _get self "queue/details" ver_uri (Some params).

Definition get_release (artistId albumId : option Z) : py pyval :=
  let params : gmap string pyval := ∅ in
  let params := if truthy (oint artistId)
                then <["artistId" := oint artistId]> params else params in
  let params := if truthy (oint albumId)
                then <["albumId" := oint albumId]> params else params in
  _get self "release" ver_uri (Some params).

Definition get_rename (artistId : Z) (albumId : option Z) : py pyval :=
  let params : gmap string pyval := {[ "artistId" := PInt artistId ]} in
  let params := if truthy (oint albumId)
                then <["albumId" := oint albumId]> params else params in
  _get self "rename" ver_uri (Some params).

Definition get_manual_import (folder : string) (downloadId : option string)
    (artistId : option Z)
    (filterExistingFiles replaceExistingFiles : option bool) : py pyval :=
  let params : gmap string pyval := {[ "folder" := PStr folder ]} in
  let params := if truthy (ostr downloadId)
                then <["downloadId" := ostr downloadId]> params else params in
  let params := if truthy (oint artistId)
                then <["artistId" := oint artistId]> params else params in
  let params := if truthy (obool filterExistingFiles)
                then <["filterExistingFiles" := obool filterExistingFiles]> params
                else params in
  let params := if truthy (obool replaceExistingFiles)
                then <["replaceExistingFiles" := obool replaceExistingFiles]> params
                else params in
  _get self "manualimport" ver_uri (Some params).

Definition upd_manual_import (data : pyval) : py pyval :=
  _put self "manualimport" ver_uri None (Some data).

Definition get_retag (artistId albumId : option Z) : py pyval :=
  let params : gmap string pyval := ∅ in
  let params := if truthy (oint artistId)
                then <["artistId" := oint artistId]> params else params in
  let params := if truthy (oint albumId)
                then <["albumId" := oint albumId]> params else params in
  _get self "retag" ver_uri (Some params).

End LidarrAPI.
End Lidarr.

(** ** [pyarr/radarr.py] *)

Module Radarr.
Section RadarrAPI.
Context (self : transport).

Definition ver_uri : string := "/v3".

Definition lookup_movie (term : string) : py pyval :=
    let params : gmap string pyval := {[ "term" := PStr term ]} in
    _get self "movie/lookup" ver_uri (Some params).

Definition _movie_json (id_ : str_or_int) (root_dir : string)
      (quality_profile_id : Z) (monitored search_for_movie : bool)
      (tmdb : option bool) : py pyval :=
    match tmdb with
    | Some _ =>
        warn "Argument tmdb is no longer used and will be removed in a future release."
    | None => mret ()
    end;;
    movies ←
      match id_ with
      | IntId n => lookup_movie ("tmdb:" +:+ str_int n)
      | StrId s => lookup_movie ("imdb:" +:+ s)
      end;
    if truthy movies then
      movie ← lift (getitem_int movies 0);
      title ← lift (getitem_str movie "title");
      year ← lift (getitem_str movie "year");
      tmdbId ← lift (getitem_str movie "tmdbId");
      images ← lift (getitem_str movie "images");
      titleSlug ← lift (getitem_str movie "titleSlug");
      mret (PDict {[ "title" := title;
                     "rootFolderPath" := PStr root_dir;
                     "qualityProfileId" := PInt quality_profile_id;
                     "year" := year;
                     "tmdbId" := tmdbId;
                     "images" := images;
                     "titleSlug" := titleSlug;
                     "monitored" := PBool monitored;
                     "addOptions" :=
                       PDict {[ "searchForMovie" := PBool search_for_movie ]} ]})
    else raise (PyarrRecordNotFound "Movie Doesn't Exist").

Definition get_movie (id_ : option Z) (tmdb : bool) : py pyval :=
    let params : gmap string pyval := ∅ in
    let params := if tmdb then <["tmdbid" := oint id_]> params else params in
    _get self
      ("movie" +:+
         match id_ with
         | None => ""
         | Some n => if tmdb then "" else "/" +:+ str_int n
         end)
      ver_uri (Some params).

Definition add_movie (id_ : str_or_int) (root_dir : string)
      (quality_profile_id : Z) (monitored search_for_movie : bool)
      (tmdb : option bool) : py pyval :=
    (if truthy (obool tmdb)
     then warn "Argument tmdb is no longer used and will be removed in a future release."
     else mret ());;
    movie_json ← _movie_json id_ root_dir quality_profile_id monitored
                   search_for_movie None;
    _post self "movie" ver_uri None (Some movie_json).

Definition upd_movie (data : pyval) (move_files : option bool) : py pyval :=
    let params : gmap string pyval := ∅ in
    let params := match move_files with
                  | Some b => <["moveFiles" := PBool b]> params
                  | None => params
                  end in
    print (type_repr data);;
    _put self ("movie" +:+ (if is_list data then "/editor" else ""))
      ver_uri (Some params) (Some data).

Definition get_movie_by_movie_id (id_ : Z) : py pyval :=
    warn "This method is deprecated and will be removed in a future release. Please use get_movie()";;
    _get self ("movie/" +:+ str_int id_) ver_uri None.

Definition del_movie (id_ : int_or_list)
      (delete_files add_exclusion : option bool) : py pyval :=
    let params : gmap string pyval := ∅ in
    let params := match delete_files with
                  | Some b => if b then <["deleteFiles" := PStr (str_bool b)]> params
                              else params
                  | None => params
                  end in
    let params := match add_exclusion with
                  | Some b => if b then <["addImportExclusion" := PStr (str_bool b)]> params
                              else params
                  | None => params
                  end in
    let params := match id_ with
                  | ManyIds l => <["movieIds" := ints l]> params
                  | OneId _ => params
                  end in
    _delete self
      match id_ with
      | ManyIds _ => "movie/editor"
      | OneId n => "movie/" +:+ str_int n
      end
      ver_uri
      match id_ with ManyIds _ => None | OneId _ => Some params end
      match id_ with ManyIds _ => Some (PDict params) | OneId _ => None end.

Definition lookup_movie_by_tmdb_id (id_ : Z) : py pyval :=
    warn "This method is deprecated and will be removed in a future release. use lookup_movie(term='tmdb:123456')";;
    let params : gmap string pyval := {[ "term" := PStr ("tmdb:" +:+ str_int id_) ]} in
    _get self "movie/lookup" ver_uri (Some params).

Definition lookup_movie_by_imdb_id (id_ : string) : py pyval :=
    warn "This method is deprecated and will be removed in a future release. use lookup_movie(term='imdb:123456')";;
    let params : gmap string pyval := {[ "term" := PStr ("imdb:" +:+ id_) ]} in
    _get self "movie/lookup" ver_uri (Some params).

Definition upd_movies (data : pyval) : py pyval :=
    warn "This method is deprecated and will be removed in a future release. Please use upd_movie() with a list to update";;
    _put self "movie/editor" ver_uri None (Some data).

Definition del_movies (data : pyval) : py pyval :=
    warn "This method is deprecated and will be removed in a future release. Please use del_movie().";;
    _delete self "movie/editor" ver_uri None (Some data).

Definition del_movie_file (id_ : int_or_list) : py pyval :=
    _delete self
      match id_ with
      | ManyIds _ => "moviefile/bulk"
      | OneId n => "moviefile/" +:+ str_int n
      end
      ver_uri None
      match id_ with
      | ManyIds l => Some (PDict {[ "movieFileIds" := ints l ]})
      | OneId _ => None
      end.

Definition get_queue (page page_size : option Z)
      (sort_dir : option PyarrSortDirection) (sort_key : option RadarrSortKey)
      (include_unknown_movie_items : option bool) : py pyval :=
    let params : gmap string pyval := ∅ in
    let params := if truthy (oint page)
                  then <["page" := oint page]> params else params in
    let params := if truthy (oint page_size)
                  then <["pageSize" := oint page_size]> params else params in
    params ←
      (if truthy (ovocab sort_key) && truthy (ovocab sort_dir)
       then mret (<["sortDirection" := ovocab sort_dir]>
                    (<["sortKey" := ovocab sort_key]> params))
       else if truthy (ovocab sort_key) || truthy (ovocab sort_dir)
       then raise (PyarrMissingArgument
                     "sort_key and sort_dir  must be used together")
       else mret params);
    let params := match include_unknown_movie_items with
                  | Some b => <["includeUnknownMovieItems" := PBool b]> params
                  | None => params
                  end in
    _get self "queue" ver_uri (Some params).

(** *** The other endpoints of [RadarrAPI] *)

Definition add_root_folder (directory : string) : py pyval :=
  _post self "rootfolder" ver_uri None (Some (PDict {[ "path" := PStr directory ]})).

Definition import_movies (data : pyval) : py pyval :=
  _post self "movie/import" ver_uri None (Some data).

Definition get_movie_files_by_movie_id (id_ : Z) : py pyval :=
  let params : gmap string pyval := {[ "movieId" := PInt id_ ]} in
  _get self "moviefile" ver_uri (Some params).

Definition get_movie_history (id_ : Z) (event_type : option RadarrEventType) : py pyval :=
  let params : gmap string pyval := {[ "movieId" := PInt id_ ]} in
  let params := if truthy (ovocab event_type)
                then <["eventType" := ovocab event_type]> params else params in
  _get self "history/movie" ver_uri (Some params).

Definition get_blocklist_by_movie_id (id_ : Z) : py pyval :=
  let params : gmap string pyval := {[ "movieId" := PInt id_ ]} in
  _get self "blocklist/movie" ver_uri (Some params).

Definition get_queue_details (id_ : option Z) (include_movie : option bool) : py pyval :=
  let params : gmap string pyval := ∅ in
  let params := if truthy (oint id_)
                then <["movieId" := oint id_]> params else params in
  let params := match include_movie with
                | Some b => <["includeMovie" := PBool b]> params
                | None => params
                end in
  _get self "queue/details" ver_uri (Some params).

Definition get_queue_status : py pyval :=
  _get self "queue/status" ver_uri None.

Definition del_queue_bulk (id_ : list Z)
    (remove_from_client blocklist : option bool) : py pyval :=
  let data : gmap string pyval := {[ "ids" := ints id_ ]} in
  let params : gmap string pyval :=
    {[ "removeFromClient" := obool remove_from_client;
       "blocklist" := obool blocklist ]} in
  _delete self "queue/bulk" ver_uri (Some params) (Some (PDict data)).

Definition force_grab_queue_item (id_ : Z) : py pyval :=
  _post self ("queue/grab/" +:+ str_int id_) ver_uri None None.

Definition get_indexer (id_ : option Z) : py pyval :=
  let path := match id_ with
              | Some n => if truthy (PInt n) then "indexer/" +:+ str_int n
                          else "indexer"
              | None => "indexer"
              end in
  _get self path ver_uri None.

Definition upd_indexer (id_ : Z) (data : pyval) : py pyval :=
  _put self ("indexer/" +:+ str_int id_) ver_uri None (Some data).

Definition del_indexer (id_ : Z) : py pyval :=
  _delete self ("indexer/" +:+ str_int id_) ver_uri None None.

(** [kwargs] are the keyword arguments of the call; Python does not let one
    of them be called [name]. *)
Definition post_command (name : RadarrCommands) (kwargs : gmap string pyval) : py pyval :=
  let data : gmap string pyval := {[ "name" := vocab name ]} in
  let data := if truthy (PDict kwargs) then kwargs ∪ data else data in
  _post self "command" ver_uri None (Some (PDict data)).

Definition get_custom_filter : py pyval :=
  _get self "customfilter" ver_uri None.

End RadarrAPI.
End Radarr.

(** * Specification vocabulary *)

(** ** A logic of issued requests

    [hoare P c Q]: started in any world, [c] only appends requests to the
    trace, every request it appends satisfies [P], and a value it returns
    satisfies [Q]. *)
Definition hoare {A} (P : request → Prop) (c : py A) (Q : A → Prop) : Prop :=
  ∀ w, ∃ new, trace (c w).2 = trace w ++ new ∧ Forall P new ∧
             ∀ a, (c w).1 = Return a → Q a.

(** A POST, if the request is one, goes to [path] and carries a record
    whose ["id"] entry is [id] ([None]: the record has no such entry). *)
Definition posts_record (path : string) (id : option pyval) (r : request) : Prop :=
  rq_method r = POST →
  rq_path r = path ∧ ∃ d, rq_data r = Some (PDict d) ∧ d !! "id" = id.

(** A POST, if the request is one, carries a record whose entry [k] is [v]. *)
Definition posts_field (k : string) (v : pyval) (r : request) : Prop :=
  rq_method r = POST → ∃ d, rq_data r = Some (PDict d) ∧ d !! k = Some v.

(** The lookup that an add of [id_] starts with. *)
Definition artist_lookup (id_ : string) : request :=
  Request GET "/v1/artist/lookup" {[ "term" := PStr ("lidarr:" +:+ id_) ]} None.

Definition album_lookup (id_ : string) : request :=
  Request GET "/v1/album/lookup" {[ "term" := PStr ("lidarr:" +:+ id_) ]} None.

Definition movie_lookup (id_ : str_or_int) : request :=
  Request GET "/v3/movie/lookup"
    {[ "term" := PStr match id_ with
                      | IntId n => "tmdb:" +:+ str_int n
                      | StrId s => "imdb:" +:+ s
                      end ]} None.

(** The two profile queries of the music service. *)
Definition quality_profiles : request := Request GET "/v1/qualityprofile" ∅ None.
Definition metadata_profiles : request := Request GET "/v1/metadataprofile" ∅ None.

Definition no_quality_profile : exn :=
  PyarrMissingProfile "There is no Quality Profile setup".
Definition no_metadata_profile : exn :=
  PyarrMissingProfile "There is no Metadata Profile setup".

Definition sort_together : exn :=
  PyarrMissingArgument "sort_key and sort_dir  must be used together".

(** The world after one [DeprecationWarning] has been emitted in [w]. *)
Definition deprecated (w : world) (msg : string) : world :=
  World (trace w) (warnings w ++ [DeprecationWarning msg]) (stdout w).

(** The request of the root-folder example. *)
Definition music_root_folder : request :=
  Request POST "/v1/rootfolder" ∅
    (Some (PDict {[ "name" := PStr "music";
                    "path" := PStr "/data/music";
                    "defaultQualityProfileId" := PInt 1;
                    "defaultMetadataProfileId" := PInt 1;
                    "defaultTags" := PList [] ]})).

(** The run of [c] from [w] sends [before] and then one POST to [path],
    whose record has [q] as quality profile id and [m] as metadata profile
    id; the outcome of [c] is the answer to that POST. *)
Definition creates_with (self : transport) (w : world) (c : py pyval)
    (before : list request) (path : string) (q m : pyval) : Prop :=
  ∃ body,
    issued c w = before ++ [Request POST path ∅ (Some (PDict body))] ∧
    body !! "qualityProfileId" = Some q ∧
    body !! "metadataProfileId" = Some m ∧
    (c w).1 = self (trace w ++ before) (Request POST path ∅ (Some (PDict body))).

(** What an add operation [add quality_profile_id metadata_profile_id],
    which looks its record up with [lookup] and creates it at [path], does
    about an omitted profile id.  With no profile configured it raises the
    missing-profile error, having sent nothing but profile queries; with
    some configured, a record it POSTs has the id of the first one, and
    when the lookup finds a record that POST is sent: the run is the
    profile queries, the lookup and one POST carrying the default. *)
Definition default_profiles (add : option Z → option Z → py pyval)
    (lookup : request) (path : string) (self : transport) (w : world) : Prop :=
  (∀ m, self (trace w) quality_profiles = Return (PList []) →
        add None m w
          = (Raise no_quality_profile,
             World (trace w ++ [quality_profiles]) (warnings w) (stdout w))) ∧
  (∀ q, self (trace w) metadata_profiles = Return (PList []) →
        add (Some q) None w
          = (Raise no_metadata_profile,
             World (trace w ++ [metadata_profiles]) (warnings w) (stdout w))) ∧
  (∀ first rest v,
        self (trace w) quality_profiles = Return (PList (first :: rest)) →
        getitem_str first "id" = Return v →
        self (trace w ++ [quality_profiles]) metadata_profiles = Return (PList []) →
        add None None w
          = (Raise no_metadata_profile,
             World (trace w ++ [quality_profiles; metadata_profiles])
               (warnings w) (stdout w))) ∧
  (∀ m first rest v,
        self (trace w) quality_profiles = Return (PList (first :: rest)) →
        getitem_str first "id" = Return v →
        Forall (posts_field "qualityProfileId" v) (issued (add None m) w)) ∧
  (∀ q first rest v,
        self (trace w) metadata_profiles = Return (PList (first :: rest)) →
        getitem_str first "id" = Return v →
        Forall (posts_field "metadataProfileId" v) (issued (add (Some q) None) w)) ∧
  (∀ first rest v,
        self (trace w ++ [quality_profiles]) metadata_profiles
          = Return (PList (first :: rest)) →
        getitem_str first "id" = Return v →
        Forall (posts_field "metadataProfileId" v) (issued (add None None) w)) ∧
  (∀ m first rest v a more,
        self (trace w) quality_profiles = Return (PList (first :: rest)) →
        getitem_str first "id" = Return v →
        self (trace w ++ [quality_profiles]) lookup
          = Return (PList (PDict a :: more)) →
        creates_with self w (add None (Some m))
          [quality_profiles; lookup] path v (PInt m)) ∧
  (∀ q first rest v a more,
        self (trace w) metadata_profiles = Return (PList (first :: rest)) →
        getitem_str first "id" = Return v →
        self (trace w ++ [metadata_profiles]) lookup
          = Return (PList (PDict a :: more)) →
        creates_with self w (add (Some q) None)
          [metadata_profiles; lookup] path (PInt q) v) ∧
  (∀ first rest v first' rest' v' a more,
        self (trace w) quality_profiles = Return (PList (first :: rest)) →
        getitem_str first "id" = Return v →
        self (trace w ++ [quality_profiles]) metadata_profiles
          = Return (PList (first' :: rest')) →
        getitem_str first' "id" = Return v' →
        self (trace w ++ [quality_profiles; metadata_profiles]) lookup
          = Return (PList (PDict a :: more)) →
        creates_with self w (add None None)
          [quality_profiles; metadata_profiles; lookup] path v v').

(** ** Sample services *)

Definition fresh : world := World [] [] [].

(** A service with nothing in its catalogue: every answer is the empty list. *)
Definition empty_catalogue : transport := λ _ _, Return (PList []).

(** A movie service that knows one movie, stored under the internal id 5. *)
Definition the_matrix : gmap string pyval :=
  {[ "id" := PInt 5; "title" := PStr "The Matrix"; "year" := PInt 1999;
     "tmdbId" := PInt 603; "images" := PList [];
     "titleSlug" := PStr "the-matrix-603" ]}.

Definition movie_service : transport := λ _ r,
  match rq_method r with
  | GET => Return (PList [PDict the_matrix])
  | _ => Return (PDict (<["id" := PInt 1]> the_matrix))
  end.

(** A music service with two quality profiles, one metadata profile and
    one record behind every lookup, stored under the internal id 42. *)
Definition music_service : transport := λ _ r,
  match rq_method r with
  | GET =>
      if String.eqb (rq_path r) "/v1/qualityprofile"
      then Return (PList [PDict {[ "id" := PInt 7; "name" := PStr "Lossless" ]};
                          PDict {[ "id" := PInt 8; "name" := PStr "Standard" ]}])
      else if String.eqb (rq_path r) "/v1/metadataprofile"
      then Return (PList [PDict {[ "id" := PInt 3; "name" := PStr "Albums" ]}])
      else Return (PList [PDict {[ "id" := PInt 42;
                                   "foreignArtistId" := PStr "f59c5520" ]}])
  | _ => Return (PDict {[ "id" := PInt 1 ]})
  end.

(** A music service with no profile configured. *)
Definition no_profiles : transport := λ _ r,
  match rq_method r with
  | GET =>
      if String.eqb (rq_path r) "/v1/artist/lookup"
      then Return (PList [PDict {[ "id" := PInt 42 ]}])
      else Return (PList [])
  | _ => Return (PDict {[ "id" := PInt 1 ]})
  end.

(** The bulk-edit dictionary that [upd_movies] is documented to take. *)
Definition editor_update : pyval :=
  PDict {[ "movieIds" := PList [PInt 1]; "monitored" := PBool false ]}.

(** ** Vocabulary of the further properties *)

(** A character of a rendered integer: a decimal digit or the sign. *)
Definition decimal_char (c : ascii) : bool :=
  match c with
  | "0" | "1" | "2" | "3" | "4" | "5" | "6" | "7" | "8" | "9" | "-" => true
  | _ => false
  end%char.

(** Every character of [s] satisfies [p]. *)
Fixpoint string_all (p : ascii → bool) (s : string) : bool :=
  match s with
  | EmptyString => true
  | String c s' => p c && string_all p s'
  end.

(** The fields that [_movie_json] reads from the lookup's first result, in
    the order in which it reads them. *)
Definition movie_fields : list string :=
  ["title"; "year"; "tmdbId"; "images"; "titleSlug"].

(** The first of them that a record lacks. *)
Definition first_missing (d : gmap string pyval) : option string :=
  List.find (λ k, negb (bool_decide (is_Some (d !! k)))) movie_fields.

(** The record that [_movie_json] builds from the lookup's first result
    [d] when [d] has all of [movie_fields]. *)
Definition movie_record (d : gmap string pyval) (root_dir : string) (q : Z)
    (monitored search : bool) : gmap string pyval :=
  {[ "title" := default PNone (d !! "title");
     "rootFolderPath" := PStr root_dir;
     "qualityProfileId" := PInt q;
     "year" := default PNone (d !! "year");
     "tmdbId" := default PNone (d !! "tmdbId");
     "images" := default PNone (d !! "images");
     "titleSlug" := default PNone (d !! "titleSlug");
     "monitored" := PBool monitored;
     "addOptions" := PDict {[ "searchForMovie" := PBool search ]} ]}.

(** The warning about the argument [tmdb]. *)
Definition tmdb_unused : warning :=
  DeprecationWarning
    "Argument tmdb is no longer used and will be removed in a future release.".

Definition is_post (r : request) : bool :=
  match rq_method r with POST => true | _ => false end.

(** How a run of an add operation uses the creation endpoint [path]: it
    sends nothing but GETs and POSTs to [path], at most one POST, and
    what it returns is what the transport answered to that POST, sent
    last, after GETs only. *)
Definition creates_once (self : transport) (path : string) (c : py pyval)
    (w : world) : Prop :=
  Forall (λ r, rq_method r = GET ∨ rq_method r = POST ∧ rq_path r = path)
    (issued c w) ∧
  (length (List.filter is_post (issued c w)) ≤ 1)%nat ∧
  ∀ v, (c w).1 = Return v →
    ∃ gets post, issued c w = gets ++ [post] ∧
      (Forall (λ r, rq_method r = GET) gets ∧
       rq_method post = POST ∧ rq_path post = path ∧
       self (trace w ++ gets) post = Return v).

(** The entries that [_artist_json] and [_album_json] set in the record
    that the lookup returned. *)
Definition overwritten : list string :=
  ["id"; "metadataProfileId"; "qualityProfileId"; "rootFolderPath";
   "addOptions"; "monitored"].

(** What an add operation does when the quality-profile query does not
    give a list of records with ids. *)
Definition profile_query_errors (add : option Z → option Z → py pyval)
    (self : transport) (w : world) : Prop :=
  let after := World (trace w ++ [quality_profiles]) (warnings w) (stdout w) in
  (∀ m p rest,
     self (trace w) quality_profiles = Return (PList (PDict p :: rest)) →
     p !! "id" = None →
     add None m w = (Raise (KeyError (PStr "id")), after)) ∧
  (∀ m d,
     self (trace w) quality_profiles = Return (PDict d) →
     add None m w = (Raise (KeyError (PInt 0)), after)) ∧
  (∀ m e,
     self (trace w) quality_profiles = Raise e → e ≠ IndexError →
     add None m w = (Raise e, after)) ∧
  (∀ m,
     self (trace w) quality_profiles = Raise IndexError →
     add None m w = (Raise no_quality_profile, after)).

(** What is sent for a flag that is only sent when it is true. *)
Definition sent_if_true (v : pyval) (flag : option bool) : option pyval :=
  match flag with Some true => Some v | _ => None end.

Definition no_track_file_selector : exn :=
  PyarrMissingArgument "artistId, albumId, trackFileIds or unmapped must be provided".

Definition no_track_selector : exn :=
  PyarrMissingArgument
    "One of artistId, albumId, albumReleaseId or trackIds must be provided".

(** Where an identifier that is one id or a list of ids goes: the path
    suffix, and the query entry. *)
Definition id_suffix (ids : option int_or_list) : string :=
  match ids with Some (OneId n) => "/" +:+ str_int n | _ => "" end.

Definition ids_entry (ids : option int_or_list) : option pyval :=
  match ids with Some (ManyIds l) => Some (ints l) | _ => None end.

(** A call that hands the transport exactly one request, of method [m]
    and under the path [prefix], and whose outcome is the transport's. *)
Definition one_request (self : transport) (m : http_method) (prefix : string)
    (c : py pyval) : Prop :=
  ∀ w, ∃ r rest, issued c w = [r] ∧ (c w).1 = self (trace w) r ∧
                 rq_method r = m ∧ rq_path r = prefix +:+ rest.

(** A call that is such a request unless it is refused before anything is
    sent, with the missing-argument error. *)
Definition refused_or_one_request (self : transport) (m : http_method)
    (prefix : string) (c : py pyval) : Prop :=
  ∀ w, (∃ msg, c w = (Raise (PyarrMissingArgument msg), w)) ∨
       ∃ r rest, issued c w = [r] ∧ (c w).1 = self (trace w) r ∧
                 rq_method r = m ∧ rq_path r = prefix +:+ rest.

(** A movie service whose only record has no title. *)
Definition untitled_service : transport := λ _ r,
  match rq_method r with
  | GET => Return (PList [PDict (delete "title" the_matrix)])
  | _ => Return (PDict ∅)
  end.

(** A music service whose quality profiles carry no id. *)
Definition nameless_profiles : transport := λ _ r,
  match rq_method r with
  | GET => Return (PList [PDict {[ "name" := PStr "Lossless" ]}])
  | _ => Return (PDict ∅)
  end.

(** A service that is out of reach: the transport raises on every request. *)
Definition unreachable : transport := λ _ _, Raise (TransportError "connection refused").

(** * Verification *)

(** ** Running a method symbolically *)

Ltac py_unfold :=
  cbv beta iota delta
    [mbind py_bind mret py_ret lift raise except_IndexError send warn print
     _get _post _put _delete get_quality_profile default from_option id];
  cbn [trace warnings stdout fst snd oint obool ovocab from_option].

Lemma getitem_int_nil : getitem_int (PList []) 0 = Raise IndexError.
Proof. reflexivity. Qed.

Lemma getitem_int_cons a l : getitem_int (PList (a :: l)) 0 = Return a.
Proof. reflexivity. Qed.

Lemma truthy_vocab {E} `{Vocabulary E} (e : E) : truthy (vocab e) = true.
Proof.
  unfold vocab, truthy.
  destruct (String.eqb_spec (vocab_value e) "") as [Heq|]; [|done].
  by destruct (vocab_nonempty e).
Qed.

Lemma setitem_str_inv v k x v' :
  setitem_str v k x = Return v' → ∃ d, v = PDict d ∧ v' = PDict (<[k := x]> d).
Proof. destruct v; try done. intros [= <-]. eauto. Qed.

Lemma issued_send self r w : issued (send self r) w = [r].
Proof. unfold issued, send. cbn [trace snd]. by rewrite drop_app_length. Qed.

(** Rewrite with what is known of the service's answers. *)
Ltac use_answer :=
  match goal with
  | H : ?self ?h ?r = _ |- context [?self ?h' ?r'] =>
      unify h h'; unify r r'; change (self h' r') with (self h r); rewrite H
  end.

Ltac py_run :=
  repeat (py_unfold;
          try use_answer;
          rewrite ?getitem_int_nil, ?getitem_int_cons, ?truthy_vocab;
          cbn [truthy andb orb negb]).

Ltac innermost_destruct x :=
  lazymatch x with
  | context [match ?y with _ => _ end] => innermost_destruct y
  | _ => destruct x eqn:?
  end.

(** Follow every branch of a run. *)
Ltac py_cases :=
  repeat (py_run;
          match goal with
          | |- context [match ?x with _ => _ end] => innermost_destruct x
          end);
  py_run.

Ltac setitem_inv :=
  repeat match goal with
  | H : setitem_str _ _ _ = Return _ |- _ =>
      apply setitem_str_inv in H; destruct H as (? & ? & ?); simplify_eq
  end.

(** ** Rules of the logic of issued requests *)

Section hoare_rules.
Context (P : request → Prop).

Lemma hoare_ret {A} (a : A) (Q : A → Prop) : Q a → hoare P (mret a) Q.
Proof.
  intros HQ w. exists []. rewrite app_nil_r. split_and!; [done..|].
  by intros ? [= <-].
Qed.

Lemma hoare_raise {A} e (Q : A → Prop) : hoare P (raise e) Q.
Proof. intros w. exists []. rewrite app_nil_r. by split_and!. Qed.

Lemma hoare_lift {A} (o : outcome A) (Q : A → Prop) :
  (∀ a, o = Return a → Q a) → hoare P (lift o) Q.
Proof. intros HQ w. exists []. rewrite app_nil_r. by split_and!. Qed.

Lemma hoare_warn msg (Q : unit → Prop) : Q () → hoare P (warn msg) Q.
Proof.
  intros HQ w. exists []. rewrite app_nil_r. split_and!; [done..|].
  by intros [] _.
Qed.

Lemma hoare_print line (Q : unit → Prop) : Q () → hoare P (print line) Q.
Proof.
  intros HQ w. exists []. rewrite app_nil_r. split_and!; [done..|].
  by intros [] _.
Qed.

Lemma hoare_send self r (Q : pyval → Prop) :
  P r → (∀ v, Q v) → hoare P (send self r) Q.
Proof.
  intros HP HQ w. exists [r]. split_and!; [done| by constructor | done].
Qed.

Lemma hoare_bind {A B} (c : py A) (k : A → py B) (Q : B → Prop) :
  hoare P c (λ a, hoare P (k a) Q) → hoare P (c ≫= k) Q.
Proof.
  intros Hc w. destruct (Hc w) as (new1 & Ht1 & HP1 & Hk).
  unfold mbind, py_bind. destruct (c w) as [[a|e] w1]; cbn [fst snd] in *.
  - destruct (Hk a eq_refl w1) as (new2 & Ht2 & HP2 & HQ).
    exists (new1 ++ new2). rewrite Ht2, Ht1, app_assoc.
    split_and!; [done| by apply Forall_app |done].
  - exists new1. by split_and!.
Qed.

Lemma hoare_except {A} (c h : py A) (Q : A → Prop) :
  hoare P c Q → hoare P h Q → hoare P (except_IndexError c h) Q.
Proof.
  intros Hc Hh w. destruct (Hc w) as (new1 & Ht1 & HP1 & HQ1).
  unfold except_IndexError.
  destruct (c w) as [[a|e] w1]; cbn [fst snd] in *; [by exists new1|].
  destruct e; try by exists new1.
  destruct (Hh w1) as (new2 & Ht2 & HP2 & HQ2).
  exists (new1 ++ new2). rewrite Ht2, Ht1, app_assoc.
  split_and!; [done| by apply Forall_app |done].
Qed.

Lemma hoare_conseq {A} (c : py A) (Q Q' : A → Prop) :
  hoare P c Q → (∀ a, Q a → Q' a) → hoare P c Q'.
Proof.
  intros Hc HQ w. destruct (Hc w) as (new & Ht & HP & Hr).
  exists new. split_and!; [done..|]. intros a Ha. by apply HQ, Hr.
Qed.

Lemma hoare_issued {A} (c : py A) (Q : A → Prop) w :
  hoare P c Q → Forall P (issued c w).
Proof.
  intros Hc. destruct (Hc w) as (new & Ht & HP & _).
  unfold issued. by rewrite Ht, drop_app_length.
Qed.
End hoare_rules.

Ltac hoare_step :=
  lazymatch goal with
  | |- hoare _ (_ ≫= _) _ => apply hoare_bind
  | |- hoare _ (mret _) _ => apply hoare_ret
  | |- hoare _ (raise _) _ => apply hoare_raise
  | |- hoare _ (lift _) _ => apply hoare_lift; intros ??
  | |- hoare _ (warn _) _ => apply hoare_warn
  | |- hoare _ (print _) _ => apply hoare_print
  | |- hoare _ (except_IndexError _ _) _ => apply hoare_except
  | |- hoare _ (send _ _) _ => apply hoare_send; [|intros ?]
  | |- hoare _ (_get _ _ _ _) _ => unfold _get
  | |- hoare _ (_post _ _ _ _ _) _ => unfold _post
  | |- hoare _ (_put _ _ _ _ _) _ => unfold _put
  | |- hoare _ (_delete _ _ _ _ _) _ => unfold _delete
  | |- hoare _ (match ?x with _ => _ end) _ => destruct x
  end.

(** ** The add operations: the id of the record that is POSTed *)

Section add_operations.
Context {LidarrArtistMonitor : Type} (monitor_json : LidarrArtistMonitor → pyval).
Context (self : transport).

Lemma artist_json_id id_ root_dir q m monitored am s :
  hoare (posts_record "/v1/artist" (Some (PInt 0)))
    (Lidarr._artist_json monitor_json self id_ root_dir q m monitored am s)
    (λ v, ∃ d, v = PDict d ∧ d !! "id" = Some (PInt 0)).
Proof.
  unfold Lidarr._artist_json, Lidarr.lookup_artist, Lidarr.get_metadata_profile,
    get_quality_profile.
  repeat hoare_step; try done.
  all: setitem_inv; eexists; split; [done|]; by simplify_map_eq.
Qed.

Lemma album_json_id id_ root_dir q m monitored am s :
  hoare (posts_record "/v1/album" (Some (PInt 0)))
    (Lidarr._album_json monitor_json self id_ root_dir q m monitored am s)
    (λ v, ∃ d, v = PDict d ∧ d !! "id" = Some (PInt 0)).
Proof.
  unfold Lidarr._album_json, Lidarr.lookup_album, Lidarr.get_metadata_profile,
    get_quality_profile.
  repeat hoare_step; try done.
  all: setitem_inv; eexists; split; [done|]; by simplify_map_eq.
Qed.

Lemma movie_json_no_id id_ root_dir q monitored search tmdb :
  hoare (posts_record "/v3/movie" None)
    (Radarr._movie_json self id_ root_dir q monitored search tmdb)
    (λ v, ∃ d, v = PDict d ∧ d !! "id" = None).
Proof.
  unfold Radarr._movie_json, Radarr.lookup_movie.
  repeat hoare_step; try done.
  all: eexists; split; [done|]; by simplify_map_eq.
Qed.

Lemma add_artist_posts id_ root_dir q m monitored am s :
  hoare (posts_record "/v1/artist" (Some (PInt 0)))
    (Lidarr.add_artist monitor_json self id_ root_dir q m monitored am s)
    (λ _, True).
Proof.
  unfold Lidarr.add_artist. apply hoare_bind.
  eapply hoare_conseq; [apply artist_json_id|].
  intros v (d & -> & Hid). repeat hoare_step; [|done].
  intros _. split; [done|]. eauto.
Qed.

Lemma add_album_posts id_ root_dir q m monitored am s :
  hoare (posts_record "/v1/album" (Some (PInt 0)))
    (Lidarr.add_album monitor_json self id_ root_dir q m monitored am s)
    (λ _, True).
Proof.
  unfold Lidarr.add_album. apply hoare_bind.
  eapply hoare_conseq; [apply album_json_id|].
  intros v (d & -> & Hid). repeat hoare_step; [|done].
  intros _. split; [done|]. eauto.
Qed.

Lemma add_movie_posts id_ root_dir q monitored search tmdb :
  hoare (posts_record "/v3/movie" None)
    (Radarr.add_movie self id_ root_dir q monitored search tmdb)
    (λ _, True).
Proof.
  unfold Radarr.add_movie. apply hoare_bind.
  apply (hoare_conseq _ _ (λ _, True)); [repeat hoare_step; done|].
  intros _ _. apply hoare_bind.
  eapply hoare_conseq; [apply movie_json_no_id|].
  intros v (d & -> & Hid). repeat hoare_step; [|done].
  intros _. split; [done|]. eauto.
Qed.

(** When the lookup finds a record and the profile ids are supplied,
    [add_artist] does POST it, with the id overwritten. *)
Lemma add_artist_found id_ root_dir q m monitored am s w a rest :
  self (trace w) (artist_lookup id_) = Return (PList (PDict a :: rest)) →
  Lidarr.add_artist monitor_json self id_ root_dir (Some q) (Some m) monitored am s w
    = send self
        (Request POST "/v1/artist" ∅
           (Some (PDict
              (<["monitored" := PBool monitored]>
                 (<["addOptions" :=
                      PDict {[ "monitor" := monitor_json am;
                               "searchForMissingAlbums" := PBool s ]}]>
                    (<["rootFolderPath" := PStr root_dir]>
                       (<["qualityProfileId" := PInt q]>
                          (<["metadataProfileId" := PInt m]>
                             (<["id" := PInt 0]> a)))))))))
        (World (trace w ++ [artist_lookup id_]) (warnings w) (stdout w)).
Proof.
  intros Hl. unfold Lidarr.add_artist, Lidarr._artist_json, Lidarr.lookup_artist.
  by py_run.
Qed.
End add_operations.

(** C1, as stated, fails for [add_movie]: the first result of the lookup
    has the id 5, and the record POSTed to the creation endpoint has no
    ["id"] entry at all, so it has no id field set to zero. *)
Lemma add_movie_posts_no_id_field :
  the_matrix !! "id" = Some (PInt 5) ∧
  ∃ r d, r ∈ issued (Radarr.add_movie movie_service (IntId 603) "/" 1 true true None) fresh ∧
         rq_method r = POST ∧ rq_path r = "/v3/movie" ∧
         rq_data r = Some (PDict d) ∧ d !! "id" = None ∧
         d !! "id" ≠ Some (PInt 0).
Proof.
  split; [done|]. eexists _, _.
  split_and!; [apply list_elem_of_lookup; by exists 1%nat | done..].
Qed.

(** C1 (amended). Every POST that [add_artist] and [add_album] issue goes
    to the creation endpoint with a record whose id field is zero, whatever
    id the first result of the lookup had; every POST that [add_movie]
    issues goes to the creation endpoint with a record built from selected
    fields that has no id field at all. *)
Theorem add_posts_id_reset {LidarrArtistMonitor : Type}
    (monitor_json : LidarrArtistMonitor → pyval) (self : transport) (w : world) :
  (∀ id_ root_dir q m monitored am s,
     Forall (posts_record "/v1/artist" (Some (PInt 0)))
       (issued (Lidarr.add_artist monitor_json self id_ root_dir q m monitored am s) w)) ∧
  (∀ id_ root_dir q m monitored am s,
     Forall (posts_record "/v1/album" (Some (PInt 0)))
       (issued (Lidarr.add_album monitor_json self id_ root_dir q m monitored am s) w)) ∧
  (∀ id_ root_dir q monitored search tmdb,
     Forall (posts_record "/v3/movie" None)
       (issued (Radarr.add_movie self id_ root_dir q monitored search tmdb) w)).
Proof.
  split_and!; intros.
  - eapply hoare_issued, add_artist_posts.
  - eapply hoare_issued, add_album_posts.
  - eapply hoare_issued, add_movie_posts.
Qed.

(** The POSTs of the theorem above do happen: the whole run of
    [add_artist] on the sample music service. *)
Example add_artist_with_defaults :
  issued (Lidarr.add_artist PStr music_service "f59c5520" "/music" None None
            true "all" false) fresh
    = [quality_profiles; metadata_profiles; artist_lookup "f59c5520";
       Request POST "/v1/artist" ∅
         (Some (PDict {[ "id" := PInt 0;
                         "foreignArtistId" := PStr "f59c5520";
                         "metadataProfileId" := PInt 3;
                         "qualityProfileId" := PInt 7;
                         "rootFolderPath" := PStr "/music";
                         "addOptions" :=
                           PDict {[ "monitor" := PStr "all";
                                    "searchForMissingAlbums" := PBool false ]};
                         "monitored" := PBool true ]}))].
Proof. vm_compute. reflexivity. Qed.

(** ** The add operations: a lookup that finds nothing *)

Section empty_lookup.
Context {LidarrArtistMonitor : Type} (monitor_json : LidarrArtistMonitor → pyval).
Context (self : transport).

(** [add_movie] checks the lookup's answer: nothing found is the
    record-not-found error, and the lookup is the only request. *)
Lemma add_movie_not_found id_ root_dir q monitored search tmdb w :
  self (trace w) (movie_lookup id_) = Return (PList []) →
  (Radarr.add_movie self id_ root_dir q monitored search tmdb w).1
    = Raise (PyarrRecordNotFound "Movie Doesn't Exist") ∧
  issued (Radarr.add_movie self id_ root_dir q monitored search tmdb) w
    = [movie_lookup id_].
Proof.
  intros Hl. unfold issued, Radarr.add_movie, Radarr._movie_json, Radarr.lookup_movie.
  destruct tmdb as [[]|], id_; py_run; by rewrite drop_app_length.
Qed.

(** [add_artist] and [add_album] subscript the lookup's answer without a
    check: nothing found is Python's own [IndexError], and the lookup is
    the only request. *)
Lemma add_artist_empty_lookup id_ root_dir q m monitored am s w :
  self (trace w) (artist_lookup id_) = Return (PList []) →
  Lidarr.add_artist monitor_json self id_ root_dir (Some q) (Some m) monitored am s w
    = (Raise IndexError,
       World (trace w ++ [artist_lookup id_]) (warnings w) (stdout w)).
Proof.
  intros Hl. unfold Lidarr.add_artist, Lidarr._artist_json, Lidarr.lookup_artist.
  by py_run.
Qed.

Lemma add_album_empty_lookup id_ root_dir q m monitored am s w :
  self (trace w) (album_lookup id_) = Return (PList []) →
  Lidarr.add_album monitor_json self id_ root_dir (Some q) (Some m) monitored am s w
    = (Raise IndexError,
       World (trace w ++ [album_lookup id_]) (warnings w) (stdout w)).
Proof.
  intros Hl. unfold Lidarr.add_album, Lidarr._album_json, Lidarr.lookup_album.
  by py_run.
Qed.
End empty_lookup.

(** C2. With the profile ids supplied and a lookup that returns the empty
    list, [add_artist] and [add_album] end in [IndexError], which is not
    the record-not-found error that the claim asks for and that
    [add_movie] raises on the same service.  None of the three sends
    anything but the lookup, so no POST is made. *)
Theorem add_artist_empty_lookup_IndexError :
  Lidarr.add_artist PStr empty_catalogue "f59c5520" "/music" (Some 1) (Some 1)
      true "all" false fresh
    = (Raise IndexError, World [artist_lookup "f59c5520"] [] []) ∧
  Lidarr.add_album PStr empty_catalogue "1dc4c347" "/music" (Some 1) (Some 1)
      true "all" false fresh
    = (Raise IndexError, World [album_lookup "1dc4c347"] [] []) ∧
  Radarr.add_movie empty_catalogue (StrId "tt123d") "/" 1 false false None fresh
    = (Raise (PyarrRecordNotFound "Movie Doesn't Exist"),
       World [movie_lookup (StrId "tt123d")] [] []).
Proof. by split_and!. Qed.

(** ** Sorting and paging parameters *)

(** C3. On [get_wanted] and on both [get_queue]s, for all other
    arguments: a sort key without a sort direction, or a direction without
    a key, raises the missing-argument error and leaves the world as it
    was, so no request has been made; with both supplied the call is one
    request whose query has both [sortKey] and [sortDirection]. *)
Theorem sort_key_and_dir_together {K} `{!Vocabulary K} (self : transport) (w : world) :
  (∀ id_ page page_size missing (k : K),
     Lidarr.get_wanted self id_ page page_size (Some k) None missing w
       = (Raise sort_together, w)) ∧
  (∀ id_ page page_size missing d,
     Lidarr.get_wanted (LidarrSortKey := K) self id_ page page_size None (Some d) missing w
       = (Raise sort_together, w)) ∧
  (∀ id_ page page_size missing (k : K) d,
     ∃ r, Lidarr.get_wanted self id_ page page_size (Some k) (Some d) missing w
            = send self r w ∧
          rq_params r !! "sortKey" = Some (PStr (vocab_value k)) ∧
          rq_params r !! "sortDirection" = Some (PStr (vocab_value d))) ∧
  (∀ page page_size ua ia ial (k : K),
     Lidarr.get_queue self page page_size (Some k) None ua ia ial w
       = (Raise sort_together, w)) ∧
  (∀ page page_size ua ia ial d,
     Lidarr.get_queue (LidarrSortKey := K) self page page_size None (Some d) ua ia ial w
       = (Raise sort_together, w)) ∧
  (∀ page page_size ua ia ial (k : K) d,
     ∃ r, Lidarr.get_queue self page page_size (Some k) (Some d) ua ia ial w
            = send self r w ∧
          rq_params r !! "sortKey" = Some (PStr (vocab_value k)) ∧
          rq_params r !! "sortDirection" = Some (PStr (vocab_value d))) ∧
  (∀ page page_size unknown k,
     Radarr.get_queue self page page_size None (Some k) unknown w
       = (Raise sort_together, w)) ∧
  (∀ page page_size unknown d,
     Radarr.get_queue self page page_size (Some d) None unknown w
       = (Raise sort_together, w)) ∧
  (∀ page page_size unknown k d,
     ∃ r, Radarr.get_queue self page page_size (Some d) (Some k) unknown w
            = send self r w ∧
          rq_params r !! "sortKey" = Some (PStr (vocab_value k)) ∧
          rq_params r !! "sortDirection" = Some (PStr (vocab_value d))).
Proof.
  split_and!; intros;
    unfold Lidarr.get_wanted, Lidarr.get_queue, Radarr.get_queue;
    py_run; try done.
  - eexists. split; [done|]. cbn [rq_params]. by simplify_map_eq.
  - destruct ua as [[]|], ia as [[]|], ial as [[]|]; py_run;
      (eexists; split; [done|]; cbn [rq_params]; by simplify_map_eq).
  - destruct unknown; py_run;
      (eexists; split; [done|]; cbn [rq_params]; by simplify_map_eq).
Qed.

(** The test's call of the movie queue, with every parameter supplied. *)
Example get_queue_sorted :
  issued (Radarr.get_queue empty_catalogue (Some 1) (Some 20) (Some DEFAULT)
            (Some SK_timeleft) (Some false)) fresh
    = [Request GET "/v3/queue"
         {[ "page" := PInt 1; "pageSize" := PInt 20; "sortKey" := PStr "timeleft";
            "sortDirection" := PStr "default";
            "includeUnknownMovieItems" := PBool false ]} None].
Proof. vm_compute. reflexivity. Qed.

(** A supplied page or page size other than zero is passed as it is, and
    an absent one is left out of the query. *)
Lemma get_queue_paging self page page_size unknown w :
  ∃ r, Radarr.get_queue self page page_size None None unknown w = send self r w ∧
       (∀ p, page = Some p → p ≠ 0 → rq_params r !! "page" = Some (PInt p)) ∧
       (∀ p, page_size = Some p → p ≠ 0 → rq_params r !! "pageSize" = Some (PInt p)) ∧
       (page = None → rq_params r !! "page" = None) ∧
       (page_size = None → rq_params r !! "pageSize" = None).
Proof.
  unfold Radarr.get_queue. py_run. eexists. split; [done|]. cbn [rq_params].
  split_and!; intros; simplify_eq; py_run;
    repeat match goal with
           | |- context [?p =? 0] => destruct (Z.eqb_spec p 0); [try done|]; cbn [negb]
           end;
    destruct unknown; try destruct page; try destruct page_size; py_run;
    repeat case_match; by simplify_map_eq.
Qed.

(** C4. A page and a page size of zero are supplied integers, yet the
    query that goes out has neither [page] nor [pageSize] (it is empty):
    the presence test is a truth-value test, and zero is false.  The claim
    asks for the value to be passed through as it is. *)
Theorem page_zero_is_left_out {K} `{!Vocabulary K} (self : transport) (w : world) :
  Radarr.get_queue self (Some 0) (Some 0) None None None w
    = send self (Request GET "/v3/queue" ∅ None) w ∧
  Lidarr.get_queue (LidarrSortKey := K) self (Some 0) (Some 0) None None None None None w
    = send self (Request GET "/v1/queue" ∅ None) w ∧
  Lidarr.get_wanted (LidarrSortKey := K) self None (Some 0) (Some 0) None None true w
    = send self (Request GET "/v1/wanted/missing" ∅ None) w.
Proof. by split_and!. Qed.

(** ** Selectors of [get_tracks] *)

(** C5, as stated, fails for a single integer track id: the call
    succeeds, but the id is part of the path and the query is empty, so
    the selector is not a query parameter. *)
Lemma get_tracks_one_track_id_in_path :
  ∃ r, issued (Lidarr.get_tracks empty_catalogue None None None (Some (OneId 5))) fresh = [r] ∧
       rq_path r = "/v1/track/5" ∧
       rq_params r !! "trackIds" = None ∧
       rq_params r = ∅.
Proof. eexists. by split_and!. Qed.

(** C5 (amended). With all four selectors absent [get_tracks] raises the
    missing-argument error and makes no request.  With exactly one of
    them supplied it makes one GET and raises nothing itself: an artist,
    album or album-release id, or a list of track ids, is the only query
    parameter of [track]; a single integer track id selects [track/{id}]
    and the query is empty. *)
Theorem get_tracks_selectors (self : transport) (w : world) :
  Lidarr.get_tracks self None None None None w
    = (Raise (PyarrMissingArgument
                "One of artistId, albumId, albumReleaseId or trackIds must be provided"),
       w) ∧
  (∀ n, Lidarr.get_tracks self (Some n) None None None w
          = send self (Request GET "/v1/track" {[ "artistId" := PInt n ]} None) w) ∧
  (∀ n, Lidarr.get_tracks self None (Some n) None None w
          = send self (Request GET "/v1/track" {[ "albumId" := PInt n ]} None) w) ∧
  (∀ n, Lidarr.get_tracks self None None (Some n) None w
          = send self (Request GET "/v1/track" {[ "albumReleaseId" := PInt n ]} None) w) ∧
  (∀ l, Lidarr.get_tracks self None None None (Some (ManyIds l)) w
          = send self (Request GET "/v1/track" {[ "trackIds" := ints l ]} None) w) ∧
  (∀ n, Lidarr.get_tracks self None None None (Some (OneId n)) w
          = send self (Request GET ("/v1/track/" +:+ str_int n) ∅ None) w).
Proof. by split_and!. Qed.

(** ** Deleting by identifier *)

(** C6. [delete_track_file] and [del_movie_file] send every list of ids
    to the [bulk] path with the ids in the request body, and every single
    integer id to the path that ends in the id, without a body. *)
Theorem delete_by_list_or_id (self : transport) (w : world) :
  (∀ l, Lidarr.delete_track_file self (ManyIds l) w
          = send self (Request DELETE "/v1/trackfile/bulk" ∅
                         (Some (PDict {[ "trackFileIds" := ints l ]}))) w) ∧
  (∀ n, Lidarr.delete_track_file self (OneId n) w
          = send self (Request DELETE ("/v1/trackfile/" +:+ str_int n) ∅ None) w) ∧
  (∀ l, Radarr.del_movie_file self (ManyIds l) w
          = send self (Request DELETE "/v3/moviefile/bulk" ∅
                         (Some (PDict {[ "movieFileIds" := ints l ]}))) w) ∧
  (∀ n, Radarr.del_movie_file self (OneId n) w
          = send self (Request DELETE ("/v3/moviefile/" +:+ str_int n) ∅ None) w).
Proof. by split_and!. Qed.

Example del_movie_file_1_2_3 :
  issued (Radarr.del_movie_file empty_catalogue (ManyIds [1; 2; 3])) fresh
    = [Request DELETE "/v3/moviefile/bulk" ∅
         (Some (PDict {[ "movieFileIds" := PList [PInt 1; PInt 2; PInt 3] ]}))] ∧
  issued (Radarr.del_movie_file empty_catalogue (OneId 999)) fresh
    = [Request DELETE "/v3/moviefile/999" ∅ None].
Proof. done. Qed.

(** [del_movie] dispatches in the same way, to [movie/editor] with the
    ids and the flags in the body, or to [movie/{id}] with the flags in
    the query. *)
Lemma del_movie_by_list_or_id (self : transport) (w : world) :
  (∀ l, Radarr.del_movie self (ManyIds l) (Some true) None w
          = send self (Request DELETE "/v3/movie/editor" ∅
                         (Some (PDict {[ "deleteFiles" := PStr "True";
                                         "movieIds" := ints l ]}))) w) ∧
  (∀ n, Radarr.del_movie self (OneId n) (Some true) None w
          = send self (Request DELETE ("/v3/movie/" +:+ str_int n)
                         {[ "deleteFiles" := PStr "True" ]} None) w).
Proof.
  split; intros; unfold Radarr.del_movie; py_run; [|done].
  do 3 f_equal; apply insert_insert_ne; done.
Qed.

(** ** The root folder of the music service *)

(** C9. [add_root_folder] of the music service with the name "music", the
    path "/data/music" and both profile ids 1, the tags omitted, hands the
    transport one POST of [/v1/rootfolder] whose body is exactly the five
    entries of the example, with [defaultTags] the empty list, and returns
    what the transport returns. *)
Theorem add_root_folder_music (self : transport) (w : world) :
  Lidarr.add_root_folder self "music" "/data/music" 1 1 None w
    = (self (trace w) music_root_folder,
       World (trace w ++ [music_root_folder]) (warnings w) (stdout w)).
Proof. done. Qed.

(** ** The lookup term of [add_movie] *)

(** C10. Whatever the other arguments, [add_movie] and [_movie_json]
    start with one lookup whose term is ["tmdb:"] and the number for an
    integer id and ["imdb:"] and the string for a string id; [_movie_json]
    sends nothing else, and [add_movie] nothing else but the POST. *)
Theorem movie_lookup_term_by_id_type (self : transport) root_dir q monitored
    search tmdb (w : world) :
  (∀ n, ∃ rest,
     issued (Radarr.add_movie self (IntId n) root_dir q monitored search tmdb) w
       = Request GET "/v3/movie/lookup"
           {[ "term" := PStr ("tmdb:" +:+ str_int n) ]} None :: rest ∧
     Forall (λ r, rq_method r = POST) rest) ∧
  (∀ s, ∃ rest,
     issued (Radarr.add_movie self (StrId s) root_dir q monitored search tmdb) w
       = Request GET "/v3/movie/lookup"
           {[ "term" := PStr ("imdb:" +:+ s) ]} None :: rest ∧
     Forall (λ r, rq_method r = POST) rest) ∧
  (∀ n, issued (Radarr._movie_json self (IntId n) root_dir q monitored search tmdb) w
          = [Request GET "/v3/movie/lookup"
               {[ "term" := PStr ("tmdb:" +:+ str_int n) ]} None]) ∧
  (∀ s, issued (Radarr._movie_json self (StrId s) root_dir q monitored search tmdb) w
          = [Request GET "/v3/movie/lookup"
               {[ "term" := PStr ("imdb:" +:+ s) ]} None]).
Proof.
  split_and!; intros;
    unfold issued, Radarr.add_movie, Radarr._movie_json, Radarr.lookup_movie;
    destruct tmdb as [[]|]; py_cases;
    rewrite <- ?app_assoc, drop_app_length; cbn [app];
    first [done | eexists; split; [done|]; repeat constructor].
Qed.

Example add_movie_lookup_terms :
  head (issued (Radarr.add_movie movie_service (IntId 603) "/" 1 true true None) fresh)
    = Some (Request GET "/v3/movie/lookup" {[ "term" := PStr "tmdb:603" ]} None) ∧
  head (issued (Radarr.add_movie movie_service (StrId "tt0133093") "/" 1 true true
                  (Some true)) fresh)
    = Some (Request GET "/v3/movie/lookup" {[ "term" := PStr "imdb:tt0133093" ]} None).
Proof. vm_compute. done. Qed.

(** ** Default profiles of [add_artist] and [add_album] *)

Ltac posts_field_leaf :=
  rewrite <- ?app_assoc, drop_app_length; cbn [app];
  repeat first [apply Forall_nil_2 | apply Forall_cons_2];
  unfold posts_field; cbn [rq_method rq_data];
  try (intros Hm; discriminate Hm);
  intros _; setitem_inv; eexists; (split; [done|]); by simplify_map_eq.

(** Write a trace [l ++ [x; y; ...]] of a hypothesis the way a run builds
    it, one request at a time. *)
Ltac split_trace :=
  repeat match goal with
  | H : context [?l ++ ?x :: ?y :: ?t] |- _ =>
      change (l ++ x :: y :: t) with (l ++ [x] ++ y :: t) in H;
      rewrite (app_assoc l [x]) in H
  end.

Ltac creates_with_leaf :=
  unfold creates_with, issued; split_trace; py_run;
  cbn [setitem_str]; py_run;
  rewrite <- ?app_assoc; cbn [app]; rewrite ?drop_app_length;
  eexists; split_and!; [reflexivity | by simplify_map_eq ..| reflexivity].

Ltac default_profiles_proof :=
  split_and!; intros;
  [ py_run; by rewrite <- ?app_assoc
  | py_run; by rewrite <- ?app_assoc
  | py_run; by rewrite <- ?app_assoc
  | unfold issued; py_cases; posts_field_leaf
  | unfold issued; py_cases; posts_field_leaf
  | unfold issued; py_cases; posts_field_leaf
  | creates_with_leaf
  | creates_with_leaf
  | creates_with_leaf ].

Section default_profiles.
Context {LidarrArtistMonitor : Type} (monitor_json : LidarrArtistMonitor → pyval).
Context (self : transport) (w : world).

Lemma add_artist_default_profiles id_ root_dir monitored am s :
  default_profiles
    (λ q m, Lidarr.add_artist monitor_json self id_ root_dir q m monitored am s)
    (artist_lookup id_) "/v1/artist" self w.
Proof.
  unfold default_profiles, Lidarr.add_artist, Lidarr._artist_json,
    Lidarr.lookup_artist, Lidarr.get_metadata_profile, quality_profiles,
    metadata_profiles, artist_lookup.
  default_profiles_proof.
Qed.

Lemma add_album_default_profiles id_ root_dir monitored am s :
  default_profiles
    (λ q m, Lidarr.add_album monitor_json self id_ root_dir q m monitored am s)
    (album_lookup id_) "/v1/album" self w.
Proof.
  unfold default_profiles, Lidarr.add_album, Lidarr._album_json,
    Lidarr.lookup_album, Lidarr.get_metadata_profile, quality_profiles,
    metadata_profiles, album_lookup.
  default_profiles_proof.
Qed.
End default_profiles.

(** C7. When the caller of [add_artist] or [add_album] omits the quality
    or the metadata profile id, the operation queries the configured
    profiles.  If the list it gets is empty it raises the missing-profile
    error, having sent only profile queries: no lookup and no POST.
    Otherwise every record it POSTs carries, as that profile id, the id of
    the first element of the list; and when the lookup then finds a
    record, the operation does send it: its requests are the profile
    queries, the lookup and one POST to the creation endpoint whose record
    has the id of the first profile for each omitted id and the caller's
    id for a supplied one, and its outcome is the answer to that POST. *)
Theorem omitted_profile_defaults {LidarrArtistMonitor : Type}
    (monitor_json : LidarrArtistMonitor → pyval) (self : transport) (w : world)
    id_ root_dir monitored am s :
  default_profiles
    (λ q m, Lidarr.add_artist monitor_json self id_ root_dir q m monitored am s)
    (artist_lookup id_) "/v1/artist" self w ∧
  default_profiles
    (λ q m, Lidarr.add_album monitor_json self id_ root_dir q m monitored am s)
    (album_lookup id_) "/v1/album" self w.
Proof.
  split; [apply add_artist_default_profiles | apply add_album_default_profiles].
Qed.

Lemma omitted_profile_defaults_witness :
  creates_with music_service fresh
    (Lidarr.add_artist PStr music_service "f59c5520" "/music" None (Some 5)
       true "all" false)
    [quality_profiles; artist_lookup "f59c5520"] "/v1/artist" (PInt 7) (PInt 5) ∧
  creates_with music_service fresh
    (Lidarr.add_album PStr music_service "1dc4c347" "/music" None None
       true "all" false)
    [quality_profiles; metadata_profiles; album_lookup "1dc4c347"] "/v1/album"
    (PInt 7) (PInt 3) ∧
  Forall (posts_field "metadataProfileId" (PInt 3))
    (issued (Lidarr.add_artist PStr music_service "f59c5520" "/music" (Some 7) None
               true "all" false) fresh) ∧
  Lidarr.add_artist PStr no_profiles "f59c5520" "/music" None None true "all" false fresh
    = (Raise no_quality_profile, World [quality_profiles] [] []) ∧
  Lidarr.add_album PStr no_profiles "1dc4c347" "/music" (Some 7) None true "all" false fresh
    = (Raise no_metadata_profile, World [metadata_profiles] [] []).
Proof.
  split_and!.
  - destruct (omitted_profile_defaults PStr music_service fresh
                "f59c5520" "/music" true "all" false)
      as [(_ & _ & _ & _ & _ & _ & H & _) _].
    eapply (H 5); reflexivity.
  - destruct (omitted_profile_defaults PStr music_service fresh
                "1dc4c347" "/music" true "all" false)
      as [_ (_ & _ & _ & _ & _ & _ & _ & _ & H)].
    eapply H; reflexivity.
  - destruct (omitted_profile_defaults PStr music_service fresh
                "f59c5520" "/music" true "all" false)
      as [(_ & _ & _ & _ & H & _) _].
    eapply (H 7); reflexivity.
  - destruct (omitted_profile_defaults PStr no_profiles fresh
                "f59c5520" "/music" true "all" false) as [(H & _) _].
    apply (H None). reflexivity.
  - destruct (omitted_profile_defaults PStr no_profiles fresh
                "1dc4c347" "/music" true "all" false) as [_ (_ & H & _)].
    apply (H 7). reflexivity.
Defined.

(** ** Deprecated aliases *)

(** C8, as stated, fails for [upd_movies]: with the dictionary it is
    documented to take, the alias PUTs to [movie/editor] while [upd_movie]
    with the same data PUTs to [movie], and no argument of [upd_movie]
    makes it send the alias's request. *)
Lemma upd_movies_differs_from_upd_movie :
  issued (Radarr.upd_movies empty_catalogue editor_update) fresh
    = [Request PUT "/v3/movie/editor" ∅ (Some editor_update)] ∧
  issued (Radarr.upd_movie empty_catalogue editor_update None) fresh
    = [Request PUT "/v3/movie" ∅ (Some editor_update)] ∧
  ∀ data move_files,
    issued (Radarr.upd_movie empty_catalogue data move_files) fresh
      ≠ issued (Radarr.upd_movies empty_catalogue editor_update) fresh.
Proof.
  split_and!; [done..|].
  intros data move_files. unfold issued, Radarr.upd_movie, Radarr.upd_movies.
  py_run. cbn [drop length app]. intros [= Hpath Hparams Hdata].
  subst data. discriminate Hpath.
Qed.

(** C8 (amended). Each deprecated alias emits one [DeprecationWarning]
    and goes on.  [get_movie_by_movie_id], [lookup_movie_by_tmdb_id] and
    [lookup_movie_by_imdb_id] then do exactly what [get_movie] and
    [lookup_movie] do with the corresponding arguments.  [upd_movies]
    PUTs its data to [movie/editor], which is the request and the result
    of [upd_movie] when the data is a list.  [del_movies] sends its data
    as the body of a DELETE to [movie/editor], which is what [del_movie]
    does with a list of ids when the data holds just those ids under
    [movieIds]. *)
Theorem deprecated_aliases (self : transport) (w : world) :
  (∀ id_, ∃ msg,
     Radarr.get_movie_by_movie_id self id_ w
       = Radarr.get_movie self (Some id_) false (deprecated w msg)) ∧
  (∀ id_, ∃ msg,
     Radarr.lookup_movie_by_tmdb_id self id_ w
       = Radarr.lookup_movie self ("tmdb:" +:+ str_int id_) (deprecated w msg)) ∧
  (∀ id_, ∃ msg,
     Radarr.lookup_movie_by_imdb_id self id_ w
       = Radarr.lookup_movie self ("imdb:" +:+ id_) (deprecated w msg)) ∧
  (∀ data, ∃ msg,
     Radarr.upd_movies self data w
       = send self (Request PUT "/v3/movie/editor" ∅ (Some data)) (deprecated w msg)) ∧
  (∀ l,
     (Radarr.upd_movies self (PList l) w).1 = (Radarr.upd_movie self (PList l) None w).1 ∧
     issued (Radarr.upd_movies self (PList l)) w
       = issued (Radarr.upd_movie self (PList l) None) w) ∧
  (∀ data, ∃ msg,
     Radarr.del_movies self data w
       = send self (Request DELETE "/v3/movie/editor" ∅ (Some data)) (deprecated w msg)) ∧
  (∀ l, ∃ msg,
     Radarr.del_movies self (PDict {[ "movieIds" := ints l ]}) w
       = Radarr.del_movie self (ManyIds l) None None (deprecated w msg)).
Proof.
  split_and!; intros; solve [eexists; reflexivity | split; reflexivity].
Qed.

Example get_movie_by_movie_id_warns :
  Radarr.get_movie_by_movie_id movie_service 5 fresh
    = (Return (PList [PDict the_matrix]),
       World [Request GET "/v3/movie/5" ∅ None]
         [DeprecationWarning
            "This method is deprecated and will be removed in a future release. Please use get_movie()"]
         []).
Proof. reflexivity. Qed.

(** * Further properties of the endpoint methods *)

(** Rewrite with what is known of the answers of the service [self]. *)
Ltac use_service_answer :=
  match goal with
  | H : ?self ?h ?r = _ |- context [?self ?h' ?r'] =>
      is_var self;
      unify h h'; unify r r'; change (self h' r') with (self h r); rewrite H
  end.

Ltac run :=
  repeat (py_unfold;
          try use_service_answer;
          rewrite ?getitem_int_nil, ?getitem_int_cons, ?truthy_vocab;
          cbn [truthy andb orb negb]).

Ltac run_cases :=
  repeat (run;
          match goal with
          | |- context [match ?x with _ => _ end] => innermost_destruct x
          end);
  run.

(** Name the outcome and the final world of the run in the goal, so that
    the run is followed once. *)
Ltac name_run c :=
  let r := fresh "r" in let w' := fresh "w'" in let Hrun := fresh "Hrun" in
  destruct c as [r w'] eqn:Hrun; revert Hrun.

(** Close a branch of a run that was named with [name_run]. *)
Ltac run_leaf := intros [= <- <-]; cbn [fst snd trace warnings stdout].

Lemma getitem_str_dict d k :
  getitem_str (PDict d) k = from_option Return (Raise (KeyError (PStr k))) (d !! k).
Proof. reflexivity. Qed.

(** ** Integer ids in paths *)

Lemma pretty_N_go_decimal x s :
  string_all decimal_char s = true →
  string_all decimal_char (pretty_N_go x s) = true.
Proof.
  revert s. induction (N.lt_wf_0 x) as [x _ IH]; intros s Hs.
  assert (x = 0 ∨ 0 < x)%N as [->|?] by lia.
  - by rewrite pretty_N_go_0.
  - rewrite pretty_N_go_step by done. apply IH; [by apply N.div_lt|].
    cbn [string_all]. rewrite Hs, andb_true_r.
    unfold pretty_N_char. by repeat case_match.
Qed.

Lemma str_int_decimal n : string_all decimal_char (str_int n) = true.
Proof.
  unfold str_int, pretty, pretty_Z. destruct n as [|p|p]; [done|..].
  - unfold pretty, pretty_positive, pretty, pretty_N.
    case_decide; [done|]. by apply pretty_N_go_decimal.
  - cbn [String.append string_all decimal_char andb].
    unfold pretty, pretty_positive, pretty, pretty_N.
    case_decide; [done|]. by apply pretty_N_go_decimal.
Qed.

Lemma str_int_not_word n s : string_all decimal_char s = false → str_int n ≠ s.
Proof. intros Hs <-. by rewrite str_int_decimal in Hs. Qed.

Lemma str_int_inj n m : str_int n = str_int m → n = m.
Proof. apply pretty_Z_inj. Qed.

Lemma append_inj_r p s t : p +:+ s = p +:+ t → s = t.
Proof. induction p as [|c p IH]; [done|]. intros [= H]. by apply IH. Qed.

(** X1. An integer id is rendered in decimal, so the path of a single
    item is never one of the collection paths beside it, and different
    ids give different requests: [delete_track_file] and [del_movie_file]
    with an integer never reach [bulk], [del_movie] and [get_movie] with
    an integer never reach [movie/editor], [movie/lookup] or
    [movie/import], and two calls of one of these four methods send the
    same request only for the same id, whatever the flags of
    [del_movie]. *)
Theorem id_paths self w :
  (∀ n m, issued (Lidarr.delete_track_file self (OneId n)) w
          = issued (Lidarr.delete_track_file self (OneId m)) w → n = m) ∧
  (∀ n m, issued (Radarr.del_movie_file self (OneId n)) w
          = issued (Radarr.del_movie_file self (OneId m)) w → n = m) ∧
  (∀ n m, issued (Radarr.get_movie self (Some n) false) w
          = issued (Radarr.get_movie self (Some m) false) w → n = m) ∧
  (∀ n m df ae df' ae', issued (Radarr.del_movie self (OneId n) df ae) w
          = issued (Radarr.del_movie self (OneId m) df' ae') w → n = m) ∧
  (∀ n r, r ∈ issued (Lidarr.delete_track_file self (OneId n)) w →
          rq_path r ≠ "/v1/trackfile/bulk") ∧
  (∀ n r, r ∈ issued (Radarr.del_movie_file self (OneId n)) w →
          rq_path r ≠ "/v3/moviefile/bulk") ∧
  (∀ n df ae r, r ∈ issued (Radarr.del_movie self (OneId n) df ae) w →
          rq_path r ∉ ["/v3/movie/editor"; "/v3/movie/lookup"; "/v3/movie/import"]) ∧
  (∀ n r, r ∈ issued (Radarr.get_movie self (Some n) false) w →
          rq_path r ∉ ["/v3/movie/editor"; "/v3/movie/lookup"; "/v3/movie/import"]).
Proof.
  split_and!; intros *;
    unfold Lidarr.delete_track_file, Radarr.del_movie_file, Radarr.get_movie,
      Radarr.del_movie, _delete, _get;
    rewrite ?issued_send.
  1-3: intros [= H]; exact (str_int_inj _ _ H).
  1: intros H%(f_equal (fmap rq_path)); cbn [fmap list_fmap rq_path] in H;
    injection H as H; exact (str_int_inj _ _ H).
  1-2: intros ->%list_elem_of_singleton [= H]; by apply str_int_not_word in H.
  all: intros ->%list_elem_of_singleton; cbn [rq_path];
    rewrite !not_elem_of_cons; (split_and!; [..|apply not_elem_of_nil]);
    intros [= H]; by apply str_int_not_word in H.
Qed.

(** ** The record that [add_movie] posts *)

(** X2. When the lookup's first result is a record, [add_movie] reads
    title, year, tmdbId, images and titleSlug from it in this order.  If
    one is missing the call ends in [KeyError] for the first missing one
    and nothing but the lookup has been sent; otherwise it POSTs exactly
    these five values with the caller's root folder, quality profile,
    monitored flag and search option, and returns the transport's
    outcome. *)
Theorem add_movie_record_fields self id_ root_dir q monitored search tmdb w d rest :
  self (trace w) (movie_lookup id_) = Return (PList (PDict d :: rest)) →
  match first_missing d with
  | Some k =>
      (Radarr.add_movie self id_ root_dir q monitored search tmdb w).1
        = Raise (KeyError (PStr k)) ∧
      issued (Radarr.add_movie self id_ root_dir q monitored search tmdb) w
        = [movie_lookup id_]
  | None =>
      let post := Request POST "/v3/movie" ∅
                    (Some (PDict (movie_record d root_dir q monitored search))) in
      (Radarr.add_movie self id_ root_dir q monitored search tmdb w).1
        = self (trace w ++ [movie_lookup id_]) post ∧
      issued (Radarr.add_movie self id_ root_dir q monitored search tmdb) w
        = [movie_lookup id_; post]
  end.
Proof.
  intros Hl.
  unfold first_missing, movie_fields, movie_record, issued, Radarr.add_movie,
    Radarr._movie_json, Radarr.lookup_movie.
  cbn [List.find].
  destruct tmdb as [[]|], id_; run;
    repeat (rewrite getitem_str_dict;
            match goal with
            | |- context [from_option _ _ (?d !! ?k)] => destruct (d !! k) eqn:?
            end;
            cbn [negb bool_decide is_Some_dec]; run);
    rewrite <- ?app_assoc, ?drop_app_length; cbn [app]; split; reflexivity.
Qed.

Lemma add_movie_record_fields_witness :
  ((Radarr.add_movie movie_service (IntId 603) "/" 1 true false None fresh).1
     = movie_service [movie_lookup (IntId 603)]
         (Request POST "/v3/movie" ∅
            (Some (PDict (movie_record the_matrix "/" 1 true false)))) ∧
   issued (Radarr.add_movie movie_service (IntId 603) "/" 1 true false None) fresh
     = [movie_lookup (IntId 603);
        Request POST "/v3/movie" ∅
          (Some (PDict (movie_record the_matrix "/" 1 true false)))]) ∧
  ((Radarr.add_movie untitled_service (StrId "tt0133093") "/" 1 true false None fresh).1
     = Raise (KeyError (PStr "title")) ∧
   issued (Radarr.add_movie untitled_service (StrId "tt0133093") "/" 1 true false None)
       fresh
     = [movie_lookup (StrId "tt0133093")]).
Proof.
  split.
  - exact (add_movie_record_fields movie_service (IntId 603) "/" 1 true false None
             fresh the_matrix [] eq_refl).
  - exact (add_movie_record_fields untitled_service (StrId "tt0133093") "/" 1 true
             false None fresh (delete "title" the_matrix) [] eq_refl).
Defined.

(** X3. The deprecated argument [tmdb] costs at most one warning.
    [add_movie] emits it exactly when [tmdb] is true and never passes the
    argument on, so [_movie_json] adds none; [_movie_json] called directly
    emits it whenever [tmdb] is supplied, also when it is [False].
    Nothing else in either method warns, whatever the service answers. *)
Theorem tmdb_argument_warnings self id_ root_dir q monitored search tmdb w :
  warnings (Radarr.add_movie self id_ root_dir q monitored search tmdb w).2
    = warnings w ++ (if truthy (obool tmdb) then [tmdb_unused] else []) ∧
  warnings (Radarr._movie_json self id_ root_dir q monitored search tmdb w).2
    = warnings w ++ (if tmdb is Some _ then [tmdb_unused] else []).
Proof.
  unfold Radarr.add_movie, Radarr._movie_json, Radarr.lookup_movie, tmdb_unused.
  split; destruct tmdb as [[]|]; run_cases; by rewrite ?app_nil_r.
Qed.

(** ** The add operations: requests and result *)

Lemma split_last (L : list request) (P : list request → request → Prop) :
  match reverse L with
  | post :: before => P (reverse before) post
  | [] => False
  end →
  ∃ gets post, L = gets ++ [post] ∧ P gets post.
Proof.
  destruct (reverse L) as [|post before] eqn:HL; [done|]. intros HP.
  exists (reverse before), post. split; [|done].
  by rewrite <- (reverse_involutive L), HL, reverse_cons.
Qed.

Ltac creates_once_leaf :=
  rewrite <- ?app_assoc, ?drop_app_length; cbn [app];
  split_and!;
  [ repeat first [apply Forall_nil_2 | apply Forall_cons_2];
    cbn [rq_method rq_path]; auto
  | cbn; lia
  | intros v Hv; first [discriminate Hv |
      apply split_last; cbn [reverse rev_append];
      split_and!; [repeat first [apply Forall_nil_2 | apply Forall_cons_2]; done
                  | done | done | by rewrite <- ?app_assoc ] ] ].

Section creates_once.
Context {LidarrArtistMonitor : Type} (monitor_json : LidarrArtistMonitor → pyval).
Context (self : transport) (w : world).

Lemma add_artist_creates_once id_ root_dir q m monitored am s :
  creates_once self "/v1/artist"
    (Lidarr.add_artist monitor_json self id_ root_dir q m monitored am s) w.
Proof.
  unfold creates_once, issued.
  name_run (Lidarr.add_artist monitor_json self id_ root_dir q m monitored am s w).
  unfold Lidarr.add_artist, Lidarr._artist_json, Lidarr.lookup_artist,
    Lidarr.get_metadata_profile.
  run_cases; run_leaf; creates_once_leaf.
Qed.

Lemma add_album_creates_once id_ root_dir q m monitored am s :
  creates_once self "/v1/album"
    (Lidarr.add_album monitor_json self id_ root_dir q m monitored am s) w.
Proof.
  unfold creates_once, issued.
  name_run (Lidarr.add_album monitor_json self id_ root_dir q m monitored am s w).
  unfold Lidarr.add_album, Lidarr._album_json, Lidarr.lookup_album,
    Lidarr.get_metadata_profile.
  run_cases; run_leaf; creates_once_leaf.
Qed.

Lemma add_movie_creates_once id_ root_dir q monitored search tmdb :
  creates_once self "/v3/movie"
    (Radarr.add_movie self id_ root_dir q monitored search tmdb) w.
Proof.
  unfold creates_once, issued.
  name_run (Radarr.add_movie self id_ root_dir q monitored search tmdb w).
  unfold Radarr.add_movie, Radarr._movie_json, Radarr.lookup_movie.
  destruct tmdb as [[]|]; run_cases; run_leaf; creates_once_leaf.
Qed.
End creates_once.

(** X4. Whatever the service answers, [add_artist], [add_album] and
    [add_movie] send only GETs and POSTs to their own creation endpoint,
    never more than one POST, and when they return a value it is the
    transport's answer to that POST, which was sent last, after GETs
    only. *)
Theorem add_operations_create_once {LidarrArtistMonitor : Type}
    (monitor_json : LidarrArtistMonitor → pyval) (self : transport) (w : world) :
  (∀ id_ root_dir q m monitored am s,
     creates_once self "/v1/artist"
       (Lidarr.add_artist monitor_json self id_ root_dir q m monitored am s) w) ∧
  (∀ id_ root_dir q m monitored am s,
     creates_once self "/v1/album"
       (Lidarr.add_album monitor_json self id_ root_dir q m monitored am s) w) ∧
  (∀ id_ root_dir q monitored search tmdb,
     creates_once self "/v3/movie"
       (Radarr.add_movie self id_ root_dir q monitored search tmdb) w).
Proof.
  split_and!; intros;
    [apply add_artist_creates_once | apply add_album_creates_once
    | apply add_movie_creates_once].
Qed.

(** ** The add operations: profile queries that go wrong *)

Section add_records.
Context {LidarrArtistMonitor : Type} (monitor_json : LidarrArtistMonitor → pyval).
Context (self : transport) (w : world).

Lemma add_artist_profile_query_errors id_ root_dir monitored am s :
  profile_query_errors
    (λ q m, Lidarr.add_artist monitor_json self id_ root_dir q m monitored am s)
    self w.
Proof.
  unfold profile_query_errors, Lidarr.add_artist, Lidarr._artist_json,
    quality_profiles.
  split_and!; intros; run; rewrite ?getitem_str_dict; run;
    repeat match goal with H : _ !! _ = None |- _ => rewrite H end; run;
    try done.
  by destruct e.
Qed.

Lemma add_album_profile_query_errors id_ root_dir monitored am s :
  profile_query_errors
    (λ q m, Lidarr.add_album monitor_json self id_ root_dir q m monitored am s)
    self w.
Proof.
  unfold profile_query_errors, Lidarr.add_album, Lidarr._album_json,
    quality_profiles.
  split_and!; intros; run; rewrite ?getitem_str_dict; run;
    repeat match goal with H : _ !! _ = None |- _ => rewrite H end; run;
    try done.
  by destruct e.
Qed.

Lemma overwritten_insert (a : gmap string pyval) v1 v2 v3 v4 v5 v6 :
  let body := <["monitored" := v6]> (<["addOptions" := v5]>
                (<["rootFolderPath" := v4]> (<["qualityProfileId" := v3]>
                   (<["metadataProfileId" := v2]> (<["id" := v1]> a))))) in
  dom body = dom a ∪ list_to_set overwritten ∧
  ∀ k, k ∉ overwritten → body !! k = a !! k.
Proof.
  cbn zeta. split.
  - rewrite !dom_insert_L. unfold overwritten. cbn [list_to_set].
    apply set_eq. intros k.
    rewrite !elem_of_union, !elem_of_singleton, elem_of_empty. tauto.
  - intros k Hk. unfold overwritten in Hk. rewrite !not_elem_of_cons in Hk.
    destruct Hk as (? & ? & ? & ? & ? & ? & _).
    by rewrite !lookup_insert_ne.
Qed.

Lemma add_artist_keeps_other_fields id_ root_dir q m monitored am s a rest :
  self (trace w) (artist_lookup id_) = Return (PList (PDict a :: rest)) →
  ∃ body,
    issued (Lidarr.add_artist monitor_json self id_ root_dir (Some q) (Some m)
              monitored am s) w
      = [artist_lookup id_; Request POST "/v1/artist" ∅ (Some (PDict body))] ∧
    dom body = dom a ∪ list_to_set overwritten ∧
    ∀ k, k ∉ overwritten → body !! k = a !! k.
Proof.
  intros Hl. unfold issued, Lidarr.add_artist, Lidarr._artist_json,
    Lidarr.lookup_artist.
  run. cbn [setitem_str]. run. rewrite <- app_assoc, drop_app_length.
  eexists. split; [reflexivity|]. apply overwritten_insert.
Qed.

Lemma add_album_keeps_other_fields id_ root_dir q m monitored am s a rest :
  self (trace w) (album_lookup id_) = Return (PList (PDict a :: rest)) →
  ∃ body,
    issued (Lidarr.add_album monitor_json self id_ root_dir (Some q) (Some m)
              monitored am s) w
      = [album_lookup id_; Request POST "/v1/album" ∅ (Some (PDict body))] ∧
    dom body = dom a ∪ list_to_set overwritten ∧
    ∀ k, k ∉ overwritten → body !! k = a !! k.
Proof.
  intros Hl. unfold issued, Lidarr.add_album, Lidarr._album_json,
    Lidarr.lookup_album.
  run. cbn [setitem_str]. run. rewrite <- app_assoc, drop_app_length.
  eexists. split; [reflexivity|]. apply overwritten_insert.
Qed.
End add_records.

(** X5. When [add_artist] or [add_album] has to query the quality
    profiles, only an [IndexError] becomes the missing-profile error.  A
    first profile without an ["id"] ends the call in [KeyError] for
    ["id"], an answer that is a dictionary in [KeyError] for [0], and any
    other exception of the transport is passed on as it is; in each case
    nothing but the profile query has been sent. *)
Theorem profile_query_failures {LidarrArtistMonitor : Type}
    (monitor_json : LidarrArtistMonitor → pyval) (self : transport) (w : world)
    id_ root_dir monitored am s :
  profile_query_errors
    (λ q m, Lidarr.add_artist monitor_json self id_ root_dir q m monitored am s)
    self w ∧
  profile_query_errors
    (λ q m, Lidarr.add_album monitor_json self id_ root_dir q m monitored am s)
    self w.
Proof.
  split; [apply add_artist_profile_query_errors
         | apply add_album_profile_query_errors].
Qed.

Lemma profile_query_failures_witness :
  Lidarr.add_artist PStr nameless_profiles "f59c5520" "/music" None None true "all"
      false fresh
    = (Raise (KeyError (PStr "id")), World [quality_profiles] [] []) ∧
  Lidarr.add_album PStr unreachable "1dc4c347" "/music" None (Some 1) true "all"
      false fresh
    = (Raise (TransportError "connection refused"), World [quality_profiles] [] []).
Proof.
  split.
  - destruct (profile_query_failures PStr nameless_profiles fresh
                "f59c5520" "/music" true "all" false) as [(H & _) _].
    eapply (H None); reflexivity.
  - destruct (profile_query_failures PStr unreachable fresh
                "1dc4c347" "/music" true "all" false) as [_ (_ & _ & H & _)].
    apply (H (Some 1)); [reflexivity | discriminate].
Defined.

(** X6. With the profile ids supplied and a lookup whose first result is
    a record, [add_artist] and [add_album] send the lookup and then one
    POST whose record has the keys of that result and the six keys the
    method sets, and agrees with the result on every other key: the
    fields that the lookup returned are sent back untouched. *)
Theorem add_keeps_other_fields {LidarrArtistMonitor : Type}
    (monitor_json : LidarrArtistMonitor → pyval) (self : transport) (w : world)
    id_ root_dir q m monitored am s a rest :
  (self (trace w) (artist_lookup id_) = Return (PList (PDict a :: rest)) →
   ∃ body,
     issued (Lidarr.add_artist monitor_json self id_ root_dir (Some q) (Some m)
               monitored am s) w
       = [artist_lookup id_; Request POST "/v1/artist" ∅ (Some (PDict body))] ∧
     dom body = dom a ∪ list_to_set overwritten ∧
     ∀ k, k ∉ overwritten → body !! k = a !! k) ∧
  (self (trace w) (album_lookup id_) = Return (PList (PDict a :: rest)) →
   ∃ body,
     issued (Lidarr.add_album monitor_json self id_ root_dir (Some q) (Some m)
               monitored am s) w
       = [album_lookup id_; Request POST "/v1/album" ∅ (Some (PDict body))] ∧
     dom body = dom a ∪ list_to_set overwritten ∧
     ∀ k, k ∉ overwritten → body !! k = a !! k).
Proof.
  split; [apply add_artist_keeps_other_fields | apply add_album_keeps_other_fields].
Qed.

Lemma add_keeps_other_fields_witness :
  ∃ body,
    issued (Lidarr.add_artist PStr music_service "f59c5520" "/music" (Some 7) (Some 3)
              true "all" false) fresh
      = [artist_lookup "f59c5520";
         Request POST "/v1/artist" ∅ (Some (PDict body))] ∧
    body !! "foreignArtistId" = Some (PStr "f59c5520").
Proof.
  destruct (add_keeps_other_fields PStr music_service fresh "f59c5520" "/music" 7 3
              true "all" false
              {[ "id" := PInt 42; "foreignArtistId" := PStr "f59c5520" ]} [])
    as [H _].
  destruct (H eq_refl) as (body & Hsent & _ & Hkeep).
  exists body. split; [exact Hsent|].
  rewrite Hkeep; [reflexivity|].
  unfold overwritten. rewrite !not_elem_of_cons.
  split_and!; [discriminate..|apply not_elem_of_nil].
Defined.

(** ** Commands with keyword arguments *)

(** X7. [post_command] of the movie service POSTs to [command] a
    dictionary that holds the command's name under ["name"], every keyword
    argument under its own key with its own value, and nothing else. *)
Theorem post_command_body self name kwargs w :
  kwargs !! "name" = None →
  ∃ body,
    Radarr.post_command self name kwargs w
      = send self (Request POST "/v3/command" ∅ (Some (PDict body))) w ∧
    body !! "name" = Some (PStr (vocab_value name)) ∧
    (∀ k v, kwargs !! k = Some v → body !! k = Some v) ∧
    dom body = {["name"]} ∪ dom kwargs.
Proof.
  intros Hname. unfold Radarr.post_command. cbv zeta. cbn [truthy].
  eexists. split; [reflexivity|].
  destruct (bool_decide_reflect (size kwargs = 0%nat)) as [Hsize|Hsize]; cbn [negb].
  - apply map_size_empty_iff in Hsize as ->. split_and!.
    + by rewrite lookup_singleton_eq.
    + intros k v Hk. by rewrite lookup_empty in Hk.
    + rewrite dom_singleton_L, dom_empty_L. by rewrite union_empty_r_L.
  - split_and!.
    + rewrite lookup_union_r by done. by rewrite lookup_singleton_eq.
    + intros k v Hk. by apply lookup_union_Some_l.
    + rewrite dom_union_L, dom_singleton_L. by rewrite (comm_L (∪)).
Qed.

Lemma post_command_body_witness :
  ∃ body,
    Radarr.post_command empty_catalogue RefreshMovie {[ "movieId" := PInt 5 ]} fresh
      = send empty_catalogue (Request POST "/v3/command" ∅ (Some (PDict body))) fresh ∧
    body !! "name" = Some (PStr "RefreshMovie") ∧
    (∀ k v, ({[ "movieId" := PInt 5 ]} : gmap string pyval) !! k = Some v →
            body !! k = Some v) ∧
    dom body = {["name"]} ∪ dom ({[ "movieId" := PInt 5 ]} : gmap string pyval).
Proof. apply (post_command_body empty_catalogue RefreshMovie). reflexivity. Defined.

(** ** Identifiers and flags that are false *)

(** X8. Where an id is tested for truth, the id zero is treated as no id:
    [get_indexer] and [get_metadata_profile] send the request of the
    whole collection exactly for no id and for the id 0, and
    [get_queue_details] and [get_release] leave an id out of the query
    exactly in these two cases; [includeMovie], tested against [None],
    is sent whenever it is supplied. *)
Theorem falsy_ids_are_dropped self w :
  (∀ id_, issued (Radarr.get_indexer self id_) w
            = issued (Radarr.get_indexer self None) w
          ↔ id_ = None ∨ id_ = Some 0) ∧
  (∀ id_, issued (Lidarr.get_metadata_profile self id_) w
            = issued (Lidarr.get_metadata_profile self None) w
          ↔ id_ = None ∨ id_ = Some 0) ∧
  (∀ id_ im, ∃ r,
     Radarr.get_queue_details self id_ im w = send self r w ∧
     (rq_params r !! "movieId" = None ↔ id_ = None ∨ id_ = Some 0) ∧
     rq_params r !! "includeMovie" = PBool <$> im) ∧
  (∀ artistId albumId, ∃ r,
     Lidarr.get_release self artistId albumId w = send self r w ∧
     (rq_params r !! "artistId" = None ↔ artistId = None ∨ artistId = Some 0) ∧
     (rq_params r !! "albumId" = None ↔ albumId = None ∨ albumId = Some 0)).
Proof.
  split_and!.
  - intros [n|]; unfold Radarr.get_indexer, _get; rewrite !issued_send; cbn [truthy];
      [|intuition congruence].
    destruct (Z.eqb_spec n 0) as [->|Hn]; cbn [negb]; [intuition congruence|].
    split; [intros [= H]|intros [[=]|[= ->]]; done].
  - intros [n|]; unfold Lidarr.get_metadata_profile, _get; rewrite !issued_send;
      cbn [truthy]; [|intuition congruence].
    destruct (Z.eqb_spec n 0) as [->|Hn]; cbn [negb]; [intuition congruence|].
    split; [intros [= H]|intros [[=]|[= ->]]; done].
  - intros id_ im. unfold Radarr.get_queue_details. eexists. split; [reflexivity|].
    cbn [rq_params]. destruct id_ as [n|], im as [b|]; cbn [oint from_option truthy fmap option_fmap option_map];
      try destruct (Z.eqb_spec n 0) as [->|Hn]; cbn [negb];
      simplify_map_eq; intuition congruence.
  - intros artistId albumId. unfold Lidarr.get_release. eexists. split; [reflexivity|].
    cbn [rq_params].
    destruct artistId as [n|], albumId as [m|]; cbn [oint from_option truthy];
      try destruct (Z.eqb_spec n 0) as [->|Hn];
      try destruct (Z.eqb_spec m 0) as [->|Hm]; cbn [negb];
      simplify_map_eq; intuition congruence.
Qed.

Section conditional_insert.
Context {A : Type}.
Implicit Types (m : gmap string A) (b : bool).

Lemma lookup_if_insert_ne b k k' (v : A) m :
  k' ≠ k → (if b then <[k' := v]> m else m) !! k = m !! k.
Proof. intros. destruct b; [by rewrite lookup_insert_ne|done]. Qed.

Lemma lookup_if_insert_eq b k (v : A) m :
  (if b then <[k := v]> m else m) !! k = if b then Some v else m !! k.
Proof. destruct b; [by rewrite lookup_insert_eq|done]. Qed.

Lemma lookup_match_insert_ne {B} (o : option B) k k' (f : B → A) m :
  k' ≠ k →
  match o with Some x => <[k' := f x]> m | None => m end !! k = m !! k.
Proof. intros. destruct o; [by rewrite lookup_insert_ne|done]. Qed.

Lemma lookup_match_insert_eq {B} (o : option B) k (f : B → A) m :
  match o with Some x => <[k := f x]> m | None => m end !! k
    = match o with Some x => Some (f x) | None => m !! k end.
Proof. destruct o; [by rewrite lookup_insert_eq|done]. Qed.
End conditional_insert.

Lemma sent_if_true_obool flag :
  (if truthy (obool flag) then Some (obool flag) else None)
    = sent_if_true (PBool true) flag.
Proof. by destruct flag as [[]|]. Qed.

Ltac lookup_params :=
  cbn [rq_params];
  repeat first
    [ rewrite lookup_insert_eq
    | rewrite lookup_insert_ne by done
    | rewrite lookup_if_insert_eq
    | rewrite lookup_if_insert_ne by done
    | rewrite lookup_match_insert_eq
    | rewrite lookup_match_insert_ne by done
    | rewrite lookup_empty ].

Ltac other_keys :=
  let k := fresh "k" in let Hk := fresh "Hk" in
  intros k Hk; rewrite !not_elem_of_cons in Hk; destruct_and?; lookup_params;
  try done.

(** X9. The flags of the two queues.  With the sort arguments both
    absent or both supplied, [get_queue] of the music service sends
    [unknownArtists], [includeArtist] and [includeAlbum] only when the flag
    is true, so a supplied [False] is left out, while [get_queue] of the
    movie service sends [includeUnknownMovieItems] whenever it is
    supplied; neither query ever has a key outside the documented ones. *)
Theorem queue_flags {K} `{!Vocabulary K} self w :
  (∀ page page_size (sort : option (K * PyarrSortDirection)) ua ia ial, ∃ r,
     Lidarr.get_queue self page page_size (fst <$> sort) (snd <$> sort) ua ia ial w
       = send self r w ∧
     rq_params r !! "unknownArtists" = sent_if_true (PBool true) ua ∧
     rq_params r !! "includeArtist" = sent_if_true (PBool true) ia ∧
     rq_params r !! "includeAlbum" = sent_if_true (PBool true) ial ∧
     ∀ k, k ∉ ["page"; "pageSize"; "sortKey"; "sortDirection"; "unknownArtists";
               "includeArtist"; "includeAlbum"] → rq_params r !! k = None) ∧
  (∀ page page_size (sort : option (RadarrSortKey * PyarrSortDirection)) unknown, ∃ r,
     Radarr.get_queue self page page_size (snd <$> sort) (fst <$> sort) unknown w
       = send self r w ∧
     rq_params r !! "includeUnknownMovieItems" = PBool <$> unknown ∧
     ∀ k, k ∉ ["page"; "pageSize"; "sortKey"; "sortDirection";
               "includeUnknownMovieItems"] → rq_params r !! k = None).
Proof.
  split; intros; unfold Lidarr.get_queue, Radarr.get_queue.
  - destruct sort as [[k d]|]; cbn [fmap option_fmap option_map fst snd]; run;
      (eexists; split; [reflexivity|]);
      (split_and!; [lookup_params; apply sent_if_true_obool..| other_keys]).
  - destruct sort as [[k d]|]; cbn [fmap option_fmap option_map fst snd]; run;
      (eexists; split; [reflexivity|]);
      (split_and!; [lookup_params; by destruct unknown | other_keys]).
Qed.

(** X10. [del_movie] is one DELETE.  The flags [deleteFiles] and
    [addImportExclusion] are present exactly when the argument is true,
    as the string "True", never as a boolean and never for [False].  For a
    single id they form the query of [movie/{id}] and there is no body;
    for a list they go, with the ids under [movieIds], into the body of
    [movie/editor], and the query is empty. *)
Theorem del_movie_flags self id_ delete_files add_exclusion w :
  ∃ r flags,
    Radarr.del_movie self id_ delete_files add_exclusion w = send self r w ∧
    rq_method r = DELETE ∧
    flags !! "deleteFiles" = sent_if_true (PStr "True") delete_files ∧
    flags !! "addImportExclusion" = sent_if_true (PStr "True") add_exclusion ∧
    (∀ k, k ∉ ["deleteFiles"; "addImportExclusion"; "movieIds"] → flags !! k = None) ∧
    match id_ with
    | OneId n =>
        rq_path r = "/v3/movie/" +:+ str_int n ∧
        rq_params r = flags ∧ rq_data r = None ∧ flags !! "movieIds" = None
    | ManyIds l =>
        rq_path r = "/v3/movie/editor" ∧
        rq_params r = ∅ ∧ rq_data r = Some (PDict flags) ∧
        flags !! "movieIds" = Some (ints l)
    end.
Proof.
  unfold Radarr.del_movie.
  destruct id_, delete_files as [[]|], add_exclusion as [[]|]; run;
    (eexists _, _; split; [reflexivity|]);
    cbn [rq_method rq_path rq_params rq_data sent_if_true str_bool];
    (split_and!; [try done; try by simplify_map_eq..]);
    try other_keys; done.
Qed.

(** ** Selectors *)

(** X11. [get_track_file] either is called with all four selectors
    absent, and then raises the missing-argument error without a request,
    or with at least one, and then is one GET of [trackfile], or of
    [trackfile/{id}] for a single file id, whose query has exactly the
    supplied artist id, album id, list of file ids and [unmapped] flag
    ([False] included) and no other key. *)
Theorem get_track_file_query self artistId albumId trackFileIds unmapped w :
  (artistId = None ∧ albumId = None ∧ trackFileIds = None ∧ unmapped = None ∧
   Lidarr.get_track_file self artistId albumId trackFileIds unmapped w
     = (Raise no_track_file_selector, w)) ∨
  ((is_Some artistId ∨ is_Some albumId ∨ is_Some trackFileIds ∨ is_Some unmapped) ∧
   ∃ r, Lidarr.get_track_file self artistId albumId trackFileIds unmapped w
          = send self r w ∧
        rq_method r = GET ∧
        rq_path r = "/v1/trackfile" +:+ id_suffix trackFileIds ∧
        rq_params r !! "artistId" = PInt <$> artistId ∧
        rq_params r !! "albumId" = PInt <$> albumId ∧
        rq_params r !! "trackFileIds" = ids_entry trackFileIds ∧
        rq_params r !! "unmapped" = PBool <$> unmapped ∧
        ∀ k, k ∉ ["artistId"; "albumId"; "trackFileIds"; "unmapped"] →
             rq_params r !! k = None).
Proof.
  unfold Lidarr.get_track_file, no_track_file_selector.
  destruct artistId, albumId, trackFileIds as [[]|], unmapped; run;
    first [ by left
          | right; (split; [eauto 10|]); eexists; (split; [reflexivity|]);
            cbn [rq_method rq_path rq_params id_suffix ids_entry fmap option_fmap
                 option_map];
            (split_and!; [try done; try by simplify_map_eq..]); other_keys; done ].
Qed.

(** X12. [get_tracks], for every combination of its selectors: with
    all four absent it raises the missing-argument error without a
    request; otherwise it is one GET of [track], or of [track/{id}] for a
    single track id, whose query has exactly the supplied artist, album
    and album-release ids (zero included) and the list of track ids, and
    no other key. *)
Theorem get_tracks_query self artistId albumId albumReleaseId trackIds w :
  (artistId = None ∧ albumId = None ∧ albumReleaseId = None ∧ trackIds = None ∧
   Lidarr.get_tracks self artistId albumId albumReleaseId trackIds w
     = (Raise no_track_selector, w)) ∨
  ((is_Some artistId ∨ is_Some albumId ∨ is_Some albumReleaseId ∨ is_Some trackIds) ∧
   ∃ r, Lidarr.get_tracks self artistId albumId albumReleaseId trackIds w
          = send self r w ∧
        rq_method r = GET ∧
        rq_path r = "/v1/track" +:+ id_suffix trackIds ∧
        rq_params r !! "artistId" = PInt <$> artistId ∧
        rq_params r !! "albumId" = PInt <$> albumId ∧
        rq_params r !! "albumReleaseId" = PInt <$> albumReleaseId ∧
        rq_params r !! "trackIds" = ids_entry trackIds ∧
        ∀ k, k ∉ ["artistId"; "albumId"; "albumReleaseId"; "trackIds"] →
             rq_params r !! k = None).
Proof.
  unfold Lidarr.get_tracks, no_track_selector.
  destruct artistId, albumId, albumReleaseId, trackIds as [[]|]; run;
    first [ by left
          | right; (split; [eauto 10|]); eexists; (split; [reflexivity|]);
            cbn [rq_method rq_path rq_params id_suffix ids_entry fmap option_fmap
                 option_map];
            (split_and!; [try done; try by simplify_map_eq..]); other_keys; done ].
Qed.

(** X13. [get_album] is always one GET whose query has
    [includeAllArtistAlbums], also when it is false; a list of album ids
    is sent as [albumids] to [album], a single id selects [album/{id}] and
    is not in the query, and the artist and foreign album ids are sent
    exactly when supplied. *)
Theorem get_album_query self albumIds artistId foreignAlbumId allArtistAlbums w :
  ∃ r, Lidarr.get_album self albumIds artistId foreignAlbumId allArtistAlbums w
         = send self r w ∧
       rq_method r = GET ∧
       rq_path r = "/v1/album" +:+ id_suffix albumIds ∧
       rq_params r !! "includeAllArtistAlbums" = Some (PBool allArtistAlbums) ∧
       rq_params r !! "albumids" = ids_entry albumIds ∧
       rq_params r !! "artistId" = PInt <$> artistId ∧
       rq_params r !! "foreignAlbumId" = PInt <$> foreignAlbumId ∧
       ∀ k, k ∉ ["includeAllArtistAlbums"; "albumids"; "artistId"; "foreignAlbumId"] →
            rq_params r !! k = None.
Proof.
  unfold Lidarr.get_album.
  destruct albumIds as [[]|], artistId, foreignAlbumId; run;
    eexists; (split; [reflexivity|]);
    cbn [rq_method rq_path rq_params id_suffix ids_entry fmap option_fmap option_map];
    (split_and!; [try done; try by simplify_map_eq..]); other_keys;
    by rewrite lookup_singleton_ne.
Qed.

(** ** One request for each call *)

Ltac one_request_proof :=
  unfold issued; run;
  first [ left; eexists; reflexivity
        | try right; rewrite drop_app_length; eexists _, _; split_and!; reflexivity ].

(** X14. Every endpoint method of the music service other than the two
    add operations is one request under [/v1/] with the method of its kind
    (GET for the reads, PUT for the updates, POST for the root folder and
    the command, DELETE for the deletions), and its outcome is the
    transport's; the four reads that check their
    arguments may instead be refused before anything is sent. *)
Theorem lidarr_endpoint_verbs {LidarrSortKey} `{!Vocabulary LidarrSortKey}
    {LidarrCommand} `{!Vocabulary LidarrCommand} (self : transport) :
  let get := one_request self GET "/v1/" in
  let put := one_request self PUT "/v1/" in
  let post := one_request self POST "/v1/" in
  let delete := one_request self DELETE "/v1/" in
  let checked_get := refused_or_one_request self GET "/v1/" in
  (∀ term, get (Lidarr.lookup self term)) ∧
  (∀ term, get (Lidarr.lookup_artist self term)) ∧
  (∀ term, get (Lidarr.lookup_album self term)) ∧
  (∀ id_, get (Lidarr.get_artist self id_)) ∧
  (∀ a b c d, get (Lidarr.get_album self a b c d)) ∧
  (∀ title, get (Lidarr.get_parse self title)) ∧
  (∀ id_, get (Lidarr.get_metadata_profile self id_)) ∧
  get (Lidarr.get_metadata_provider self) ∧
  (∀ a b c d, get (Lidarr.get_queue_details self a b c d)) ∧
  (∀ a b, get (Lidarr.get_release self a b)) ∧
  (∀ a b, get (Lidarr.get_rename self a b)) ∧
  (∀ a b c d e, get (Lidarr.get_manual_import self a b c d e)) ∧
  (∀ a b, get (Lidarr.get_retag self a b)) ∧
  (∀ a b c (k : option LidarrSortKey) d e,
     checked_get (Lidarr.get_wanted self a b c k d e)) ∧
  (∀ a b (k : option LidarrSortKey) d e f g,
     checked_get (Lidarr.get_queue self a b k d e f g)) ∧
  (∀ a b c d, checked_get (Lidarr.get_tracks self a b c d)) ∧
  (∀ a b c d, checked_get (Lidarr.get_track_file self a b c d)) ∧
  (∀ data, put (Lidarr.upd_artist self data)) ∧
  (∀ data, put (Lidarr.upd_album self data)) ∧
  (∀ data, put (Lidarr.upd_track_file self data)) ∧
  (∀ data, put (Lidarr.upd_metadata_profile self data)) ∧
  (∀ data, put (Lidarr.upd_metadata_provider self data)) ∧
  (∀ data, put (Lidarr.upd_manual_import self data)) ∧
  (∀ a b c d e, post (Lidarr.add_root_folder self a b c d e)) ∧
  (∀ (name : LidarrCommand), post (Lidarr.post_command self name)) ∧
  (∀ id_, delete (Lidarr.delete_artist self id_)) ∧
  (∀ id_, delete (Lidarr.delete_album self id_)) ∧
  (∀ ids_, delete (Lidarr.delete_track_file self ids_)).
Proof.
  cbv zeta. unfold one_request, refused_or_one_request.
  split_and!; intros;
    cbv delta [Lidarr.lookup Lidarr.lookup_artist Lidarr.lookup_album
      Lidarr.get_artist Lidarr.get_album Lidarr.get_parse
      Lidarr.get_metadata_profile Lidarr.get_metadata_provider
      Lidarr.get_queue_details Lidarr.get_release Lidarr.get_rename
      Lidarr.get_manual_import Lidarr.get_retag Lidarr.get_wanted Lidarr.get_queue
      Lidarr.get_tracks Lidarr.get_track_file
      Lidarr.upd_artist Lidarr.upd_album Lidarr.upd_track_file
      Lidarr.upd_metadata_profile Lidarr.upd_metadata_provider
      Lidarr.upd_manual_import Lidarr.add_root_folder Lidarr.post_command
      Lidarr.delete_artist Lidarr.delete_album Lidarr.delete_track_file];
    try (by one_request_proof).
  all: repeat match goal with o : option _ |- _ => destruct o end;
    by one_request_proof.
Qed.

(** X15. Every modelled endpoint method of the movie service other than
    [add_movie] is one request under [/v3/] with the method that the
    comment above it in [radarr.py] names, the deprecated aliases
    included, and its outcome is the transport's; [get_queue] may instead be refused before
    anything is sent. *)
Theorem radarr_endpoint_verbs (self : transport) :
  let get := one_request self GET "/v3/" in
  let put := one_request self PUT "/v3/" in
  let post := one_request self POST "/v3/" in
  let delete := one_request self DELETE "/v3/" in
  (∀ id_ tmdb, get (Radarr.get_movie self id_ tmdb)) ∧
  (∀ term, get (Radarr.lookup_movie self term)) ∧
  (∀ id_, get (Radarr.get_movie_files_by_movie_id self id_)) ∧
  (∀ id_ event_type, get (Radarr.get_movie_history self id_ event_type)) ∧
  (∀ id_, get (Radarr.get_blocklist_by_movie_id self id_)) ∧
  (∀ id_ include_movie, get (Radarr.get_queue_details self id_ include_movie)) ∧
  get (Radarr.get_queue_status self) ∧
  (∀ id_, get (Radarr.get_indexer self id_)) ∧
  get (Radarr.get_custom_filter self) ∧
  (∀ a b c d e,
     refused_or_one_request self GET "/v3/" (Radarr.get_queue self a b c d e)) ∧
  (∀ id_, get (Radarr.get_movie_by_movie_id self id_)) ∧
  (∀ id_, get (Radarr.lookup_movie_by_tmdb_id self id_)) ∧
  (∀ id_, get (Radarr.lookup_movie_by_imdb_id self id_)) ∧
  (∀ data move_files, put (Radarr.upd_movie self data move_files)) ∧
  (∀ data, put (Radarr.upd_movies self data)) ∧
  (∀ id_ data, put (Radarr.upd_indexer self id_ data)) ∧
  (∀ directory, post (Radarr.add_root_folder self directory)) ∧
  (∀ data, post (Radarr.import_movies self data)) ∧
  (∀ id_, post (Radarr.force_grab_queue_item self id_)) ∧
  (∀ name kwargs, post (Radarr.post_command self name kwargs)) ∧
  (∀ id_ delete_files add_exclusion,
     delete (Radarr.del_movie self id_ delete_files add_exclusion)) ∧
  (∀ data, delete (Radarr.del_movies self data)) ∧
  (∀ id_, delete (Radarr.del_movie_file self id_)) ∧
  (∀ id_ a b, delete (Radarr.del_queue_bulk self id_ a b)) ∧
  (∀ id_, delete (Radarr.del_indexer self id_)).
Proof.
  cbv zeta. unfold one_request, refused_or_one_request.
  split_and!; intros;
    cbv delta [Radarr.get_movie Radarr.lookup_movie
      Radarr.get_movie_files_by_movie_id Radarr.get_movie_history
      Radarr.get_blocklist_by_movie_id Radarr.get_queue_details
      Radarr.get_queue_status Radarr.get_indexer Radarr.get_custom_filter
      Radarr.get_queue Radarr.get_movie_by_movie_id
      Radarr.lookup_movie_by_tmdb_id Radarr.lookup_movie_by_imdb_id
      Radarr.upd_movie Radarr.upd_movies Radarr.upd_indexer
      Radarr.add_root_folder Radarr.import_movies Radarr.force_grab_queue_item
      Radarr.post_command Radarr.del_movie Radarr.del_movies
      Radarr.del_movie_file Radarr.del_queue_bulk Radarr.del_indexer];
    try (by one_request_proof).
  all: repeat match goal with o : option _ |- _ => destruct o end;
    by one_request_proof.
Qed.

(** ** Fetching a record and sending it back *)

(** X16. Updating with what was just fetched.  [upd_movie] applied to
    the answer of [get_movie] PUTs that answer unchanged, to
    [movie/editor] when the answer is a list and to [movie] otherwise, and
    prints its type; [upd_artist] applied to the answer of [get_artist]
    PUTs it to [artist].  When the fetch raises, the exception is the
    outcome and no PUT is sent. *)
Theorem fetch_then_update self w :
  (∀ id_ v,
     let fetch := Request GET ("/v3/movie" +:+ from_option (λ n, "/" +:+ str_int n) "" id_)
                    ∅ None in
     let update := Request PUT ("/v3/movie" +:+ (if is_list v then "/editor" else ""))
                     ∅ (Some v) in
     self (trace w) fetch = Return v →
     (Radarr.get_movie self id_ false ≫= λ data, Radarr.upd_movie self data None) w
       = (self (trace w ++ [fetch]) update,
          World (trace w ++ [fetch; update]) (warnings w)
            (stdout w ++ [type_repr v]))) ∧
  (∀ id_ e,
     let fetch := Request GET ("/v3/movie" +:+ from_option (λ n, "/" +:+ str_int n) "" id_)
                    ∅ None in
     self (trace w) fetch = Raise e →
     (Radarr.get_movie self id_ false ≫= λ data, Radarr.upd_movie self data None) w
       = (Raise e, World (trace w ++ [fetch]) (warnings w) (stdout w))) ∧
  (∀ n v,
     let fetch := Request GET ("/v1/artist/" +:+ str_int n) ∅ None in
     let update := Request PUT "/v1/artist" ∅ (Some v) in
     self (trace w) fetch = Return v →
     (Lidarr.get_artist self (Some (IntId n)) ≫= Lidarr.upd_artist self) w
       = (self (trace w ++ [fetch]) update,
          World (trace w ++ [fetch; update]) (warnings w) (stdout w))) ∧
  (∀ n e,
     let fetch := Request GET ("/v1/artist/" +:+ str_int n) ∅ None in
     self (trace w) fetch = Raise e →
     (Lidarr.get_artist self (Some (IntId n)) ≫= Lidarr.upd_artist self) w
       = (Raise e, World (trace w ++ [fetch]) (warnings w) (stdout w))).
Proof.
  split_and!; cbv zeta; intros *;
    unfold Radarr.get_movie, Radarr.upd_movie, Lidarr.get_artist, Lidarr.upd_artist;
    try destruct id_; intros Hf; run; by rewrite <- ?app_assoc.
Qed.

Lemma fetch_then_update_witness :
  (Radarr.get_movie movie_service None false
     ≫= λ data, Radarr.upd_movie movie_service data None) fresh
    = (Return (PDict (<["id" := PInt 1]> the_matrix)),
       World [Request GET "/v3/movie" ∅ None;
              Request PUT "/v3/movie/editor" ∅ (Some (PList [PDict the_matrix]))]
         [] ["<class 'list'>"]) ∧
  (Lidarr.get_artist unreachable (Some (IntId 1)) ≫= Lidarr.upd_artist unreachable) fresh
    = (Raise (TransportError "connection refused"),
       World [Request GET "/v1/artist/1" ∅ None] [] []).
Proof.
  destruct (fetch_then_update movie_service fresh) as (H & _).
  destruct (fetch_then_update unreachable fresh) as (_ & _ & _ & H').
  split.
  - exact (H None (PList [PDict the_matrix]) eq_refl).
  - exact (H' 1 (TransportError "connection refused") eq_refl).
Defined.
